(** * Rate-distortion plotting utility: [compressai/utils/plot/__main__.py]

  A shallow embedding of the command-line plotting tool and the proofs of
  the properties its specification states.  The Python code is modelled
  as it is written: values decoded from JSON keep Python's dynamic typing
  ([pyobj]), dictionaries are insertion-ordered association lists,
  exceptions and observable effects (files opened, lines printed, charts
  written) are threaded through a small trace-and-exception monad, and
  the arithmetic of the decibel conversion is an interface ([Arith]) so
  that the structural results hold for any implementation of [log10]. *)

From Stdlib Require Import String Ascii List ZArith Bool Lia Reals Lra.
Import ListNotations.
Local Open Scope list_scope.
Local Open Scope string_scope.

(** ** Python strings *)

Module PyStr.

(** The double-quote character, as it appears inside f-strings. *)
Definition dq : string := String (ascii_of_nat 34) EmptyString.

(** [s.split(sep)] for a one-character separator: never empty. *)
Fixpoint split (sep : ascii) (s : string) : list string :=
  match s with
  | EmptyString => [EmptyString]
  | String c rest =>
      match split sep rest with
      | [] => [String c EmptyString]
      | piece :: pieces =>
          if Ascii.eqb c sep then EmptyString :: piece :: pieces
          else String c piece :: pieces
      end
  end.

(** [sep.join(items)]. *)
Definition join (sep : string) (items : list string) : string :=
  String.concat sep items.

(** [s.startswith(p)]. *)
Definition startswith (p s : string) : bool := String.prefix p s.

(** [sub in s] for two strings: substring search. *)
Fixpoint contains (sub s : string) : bool :=
  String.prefix sub s ||
  match s with
  | EmptyString => false
  | String _ rest => contains sub rest
  end.

(** [s.lstrip(c)] and the number of characters it removed. *)
Fixpoint lstrip (c : ascii) (s : string) : string :=
  match s with
  | String c' rest => if Ascii.eqb c' c then lstrip c rest else s
  | EmptyString => EmptyString
  end.

(** [s.rfind(c)]: index of the last occurrence, if any. *)
Fixpoint rfind (c : ascii) (s : string) : option nat :=
  match s with
  | EmptyString => None
  | String c' rest =>
      match rfind c rest with
      | Some i => Some (S i)
      | None => if Ascii.eqb c' c then Some 0%nat else None
      end
  end.

End PyStr.

(** ** [pathlib.PurePosixPath]

  [Path(p)] keeps a root and the list of path components, dropping empty
  components and single dots. *)

Module Path.

Record t : Type := mk { root : string; parts : list string }.

Definition keep_part (x : string) : bool :=
  negb (x =? "") && negb (x =? ".").

(** [splitroot]: exactly two leading slashes are kept as such, any other
    number collapses to one. *)
Definition splitroot (p : string) : string * string :=
  match p with
  | String "/" _ =>
      let stripped := PyStr.lstrip "/" p in
      if (String.length p - String.length stripped =? 2)%nat
      then ("//", stripped) else ("/", stripped)
  | _ => ("", p)
  end.

Definition of_string (p : string) : t :=
  let (r, rel) := splitroot p in
  mk r (filter keep_part (PyStr.split "/" rel)).

(** [str(path)]. *)
Definition str (p : t) : string :=
  match root p, parts p with
  | EmptyString, [] => "."
  | r, ps => r ++ PyStr.join "/" ps
  end.

(** [path.name]: the final component, empty for a bare root or [.]. *)
Definition name (p : t) : string := last (parts p) "".

(** [path.stem]: the final component without its last suffix. *)
Definition stem (p : t) : string :=
  let n := name p in
  match PyStr.rfind "." n with
  | Some i =>
      if ((0 <? i) && (i <? String.length n - 1))%nat
      then String.substring 0 i n else n
  | None => n
  end.

End Path.

(** ** Arithmetic interface

  What NumPy computes on the elements of an array: the structural
  properties below hold for any implementation of these operations. *)

Class Arith (num : Type) : Type := {
  num_of_int : Z -> num;
  num_sub : num -> num -> num;
  num_mul : num -> num -> num;
  num_log10 : num -> num
}.

(** Exact real arithmetic, [log10 x = ln x / ln 10]. *)
Definition Rlog10 (x : R) : R := (ln x / ln 10)%R.

#[export] Instance RArith : Arith R := {|
  num_of_int := IZR;
  num_sub := Rminus;
  num_mul := Rmult;
  num_log10 := Rlog10
|}.

(** ** Python objects *)

Section Objects.

Variable num : Type.

(** What [json.load] builds, plus the NumPy array that the decibel
    conversion stores back into the document. *)
#[warnings="-register-all"]
Inductive pyobj : Type :=
| PNone
| PBool (b : bool)
| PNum (n : num)
| PStr (s : string)
| PList (items : list pyobj)
| PDict (entries : list (string * pyobj))
| PNdarray (elems : list num).

(** *** Dictionaries: insertion-ordered, looked up by key *)

Definition dict : Type := list (string * pyobj).

Fixpoint dict_get (k : string) (d : dict) : option pyobj :=
  match d with
  | [] => None
  | (k', v) :: rest => if k' =? k then Some v else dict_get k rest
  end.

Definition dict_mem (k : string) (d : dict) : bool :=
  match dict_get k d with Some _ => true | None => false end.

(** [d[k] = v]: an existing key keeps its position, a new one goes last. *)
Fixpoint dict_set (k : string) (v : pyobj) (d : dict) : dict :=
  match d with
  | [] => [(k, v)]
  | (k', v') :: rest =>
      if k' =? k then (k', v) :: rest else (k', v') :: dict_set k v rest
  end.

Definition dict_keys (d : dict) : list string := map fst d.

(** [len(o)] where it is defined. *)
Definition py_len (o : pyobj) : option nat :=
  match o with
  | PStr s => Some (String.length s)
  | PList items => Some (List.length items)
  | PDict entries => Some (List.length entries)
  | PNdarray elems => Some (List.length elems)
  | _ => None
  end.

(** A flat list of numbers, the shape of a metric's series. *)
Fixpoint as_numbers (items : list pyobj) : option (list num) :=
  match items with
  | [] => Some []
  | PNum n :: rest =>
      match as_numbers rest with
      | Some ns => Some (n :: ns)
      | None => None
      end
  | _ :: _ => None
  end.

End Objects.

Arguments PNone {num}.
Arguments PBool {num} b.
Arguments PNum {num} n.
Arguments PStr {num} s.
Arguments PList {num} items.
Arguments PDict {num} entries.
Arguments PNdarray {num} elems.
Arguments dict_get {num} k d.
Arguments dict_mem {num} k d.
Arguments dict_set {num} k v d.
Arguments dict_keys {num} d.
Arguments py_len {num} o.
Arguments as_numbers {num} items.

(** ** Exceptions *)

(** [json.decoder.JSONDecodeError(msg, doc, pos)]. *)
Record decode_error : Type := {
  err_msg : string;
  err_doc : string;
  err_pos : Z
}.

Inductive exn : Type :=
| OSError (path : string)
| JSONDecodeError (e : decode_error)
| ValueError (msg : string)
| TypeError
| KeyError (key : string)
| IndexError
| AttributeError (attr : string)
| NameError (name : string)
| NumpyUnsupported
| SystemExit (code : Z).

Inductive outcome (A : Type) : Type :=
| Return (a : A)
| Raise (e : exn).

Arguments Return {A} a.
Arguments Raise {A} e.

(** ** [argparse]

    The part of the standard library's [ArgumentParser] that the command
    line of this tool exercises: optional arguments only, with [store] and
    [help] actions, [type], [nargs], [default], [choices] and [required].
    Token classification and argument matching follow CPython 3.11:
    exact option strings, [--opt=value], unambiguous prefixes of long
    options, short options with an attached value or clustered after
    [-h], negative numbers as plain arguments, and [--], after which
    nothing is an option any more.  Strings are ASCII. *)

Module Argparse.

Inductive arg_type : Type := TStr | TInt.

(** [nargs=None], [nargs='*'], [nargs=n]. *)
Inductive nargs_t : Type := NargsNone | NargsStar | NargsInt (n : nat).

(** The values a namespace attribute holds. *)
#[warnings="-register-all"]
Inductive value : Type :=
| VNone
| VStr (s : string)
| VInt (z : Z)
| VList (items : list value).

Inductive action_class : Type := StoreAction | HelpAction.

(** One [add_argument] call. *)
Record argument : Type := {
  action : action_class;
  flags : list string;
  type : arg_type;
  nargs : nargs_t;
  default : value;
  choices : option (list string);
  required : bool
}.

Definition parser : Type := list argument.

Definition namespace : Type := list (string * value).

Inductive error : Type :=
| InvalidChoice (flag : string) (v : value) (allowed : list string)
| InvalidValue (flag : string) (text : string)
| ExpectedArguments (flag : string) (n : nargs_t)
| IgnoredExplicitArgument (flag : string) (text : string)
| AmbiguousOption (token : string) (matches : list string)
| RequiredArguments (names : list string)
| UnrecognizedArguments (extras : list string).

(** Why a parse ends the process: [-h] was given, or the command line is
    wrong. *)
Inductive exit_reason : Type :=
| Help
| Usage (e : error).

Inductive parse_result : Type :=
| Parsed (ns : namespace)
| Exited (why : exit_reason).

(** *** Building the parser *)

Definition second_is_dash (s : string) : bool :=
  match s with String _ (String "-" _) => true | _ => false end.

Definition first_is_dash (s : string) : bool :=
  match s with String "-" _ => true | _ => false end.

Fixpoint replace_char (a b : ascii) (s : string) : string :=
  match s with
  | EmptyString => EmptyString
  | String c rest =>
      String (if Ascii.eqb c a then b else c) (replace_char a b rest)
  end.

(** The attribute name of an optional: its first long option string, or
    else its first option string, without the leading dashes and with
    dashes turned into underscores. *)
Definition dest_of_flags (fl : list string) : string :=
  let long := filter second_is_dash fl in
  let chosen := match long with l :: _ => l | [] => hd "" fl end in
  replace_char "-" "_" (PyStr.lstrip "-" chosen).

(** The help action has no attribute. *)
Definition dest (a : argument) : option string :=
  match action a with
  | HelpAction => None
  | StoreAction => Some (dest_of_flags (flags a))
  end.

(** The [-h/--help] argument every parser starts with. *)
Definition help_argument : argument := {|
  action := HelpAction;
  flags := ["-h"; "--help"];
  type := TStr;
  nargs := NargsInt 0;
  default := VNone;
  choices := None;
  required := false
|}.

Definition ArgumentParser : parser := [help_argument].

(** The name an argument has in error messages. *)
Definition action_name (a : argument) : string := PyStr.join "/" (flags a).

(** *** Namespaces *)

Fixpoint getattr (ns : namespace) (attr : string) : option value :=
  match ns with
  | [] => None
  | (k, v) :: rest => if k =? attr then Some v else getattr rest attr
  end.

Fixpoint setattr (ns : namespace) (attr : string) (v : value) : namespace :=
  match ns with
  | [] => [(attr, v)]
  | (k, v') :: rest =>
      if k =? attr then (k, v) :: rest else (k, v') :: setattr rest attr v
  end.

(** The namespace before any argument is read: every default. *)
Fixpoint defaults (p : parser) (ns : namespace) : namespace :=
  match p with
  | [] => ns
  | a :: rest =>
      match dest a with
      | Some d =>
          defaults rest
            (match getattr ns d with
             | Some _ => ns
             | None => setattr ns d (default a)
             end)
      | None => defaults rest ns
      end
  end.

(** *** Classifying one token *)

Inductive token_class : Type :=
| Positional
| Optional (a : argument) (option_string : string) (explicit : option string)
| UnknownOptional
| Ambiguous (matches : list string).

Definition option_string_actions (p : parser) : list (string * argument) :=
  flat_map (fun a => map (fun f => (f, a)) (flags a)) p.

Definition lookup_option (p : parser) (s : string) : option argument :=
  match find (fun fa => fst fa =? s) (option_string_actions p) with
  | Some fa => Some (snd fa)
  | None => None
  end.

(** [s.split(c, 1)] when [c] occurs in [s]. *)
Fixpoint cut (c : ascii) (s : string) : option (string * string) :=
  match s with
  | EmptyString => None
  | String c' rest =>
      if Ascii.eqb c' c then Some (EmptyString, rest)
      else match cut c rest with
           | Some (before, after) => Some (String c' before, after)
           | None => None
           end
  end.

Definition is_digit (c : ascii) : bool :=
  let n := nat_of_ascii c in ((48 <=? n) && (n <=? 57))%nat.

Fixpoint all_digits (s : string) : bool :=
  match s with
  | EmptyString => true
  | String c rest => is_digit c && all_digits rest
  end.

Definition digits1 (s : string) : bool :=
  match s with EmptyString => false | _ => all_digits s end.

(** Removes one final newline, which [$] lets a match stop before. *)
Fixpoint chomp (s : string) : string :=
  match s with
  | EmptyString => EmptyString
  | String c EmptyString =>
      if Ascii.eqb c (ascii_of_nat 10) then EmptyString else s
  | String c rest => String c (chomp rest)
  end.

Definition number_body (s : string) : bool :=
  digits1 s ||
  match cut "." s with
  | Some (whole, frac) => all_digits whole && digits1 frac
  | None => false
  end.

(** The regular expression [^-\d+$|^-\d*\.\d+$]. *)
Definition negative_number (s : string) : bool :=
  match s with
  | String "-" body => number_body body || number_body (chomp body)
  | _ => false
  end.

(** [_get_option_tuples]. *)
Definition get_option_tuples (p : parser) (tok : string)
  : list (argument * string * option string) :=
  if second_is_dash tok then
    let (option_prefix, explicit_arg) :=
      match cut "=" tok with
      | Some (before, after) => (before, Some after)
      | None => (tok, None)
      end in
    flat_map
      (fun fa : string * argument =>
         if PyStr.startswith option_prefix (fst fa)
         then [(snd fa, fst fa, explicit_arg)] else [])
      (option_string_actions p)
  else
    let short_option_prefix := String.substring 0 2 tok in
    let short_explicit_arg :=
      String.substring 2 (String.length tok - 2) tok in
    flat_map
      (fun fa : string * argument =>
         if fst fa =? short_option_prefix
         then [(snd fa, fst fa, Some short_explicit_arg)]
         else if PyStr.startswith tok (fst fa)
         then [(snd fa, fst fa, None)] else [])
      (option_string_actions p).

(** [_parse_optional]; the parser has no option that looks like a
    negative number. *)
Definition parse_optional (p : parser) (tok : string) : token_class :=
  if negb (first_is_dash tok) then Positional
  else
    match lookup_option p tok with
    | Some a => Optional a tok None
    | None =>
        if (String.length tok =? 1)%nat then Positional
        else
          let by_equals :=
            match cut "=" tok with
            | Some (option_string, explicit_arg) =>
                match lookup_option p option_string with
                | Some a => Some (Optional a option_string (Some explicit_arg))
                | None => None
                end
            | None => None
            end in
          match by_equals with
          | Some cls => cls
          | None =>
              match get_option_tuples p tok with
              | [(a, option_string, explicit_arg)] =>
                  Optional a option_string explicit_arg
              | _ :: _ :: _ as tuples =>
                  Ambiguous (map (fun t => snd (fst t)) tuples)
              | [] =>
                  if negative_number tok then Positional
                  else if PyStr.contains " " tok then Positional
                  else UnknownOptional
              end
          end
    end.

(** *** Matching an option with the arguments that follow it *)

(** Everything from the first [--] on is left over. *)
Fixpoint split_dashdash (argv : list string) : list string * list string :=
  match argv with
  | [] => ([], [])
  | tok :: rest =>
      if tok =? "--" then ([], argv)
      else let (before, after) := split_dashdash rest in (tok :: before, after)
  end.

(** The first ambiguous token, which stops the parse before any action. *)
Fixpoint first_ambiguous (classified : list (string * token_class))
  : option error :=
  match classified with
  | [] => None
  | (tok, Ambiguous matches) :: _ => Some (AmbiguousOption tok matches)
  | _ :: rest => first_ambiguous rest
  end.

(** An option token with the run of plain arguments that follows it. *)
Definition option_group : Type := (string * token_class * list string)%type.

(** The plain arguments before the first option, then every option with
    the plain arguments up to the next one. *)
Definition group_tokens (classified : list (string * token_class))
  : list string * list option_group :=
  fold_right
    (fun (tc : string * token_class) (acc : list string * list option_group) =>
       let (run, groups) := acc in
       match snd tc with
       | Positional => (fst tc :: run, groups)
       | cls => ([], (fst tc, cls, run) :: groups)
       end)
    ([], []) classified.

(** An action with the argument strings it was given. *)
Definition action_tuple : Type := (argument * list string * string)%type.

(** [_match_argument(action, 'A')]: how many of one explicit argument the
    action takes. *)
Definition match_explicit (a : argument) (option_string : string)
  : error + nat :=
  match nargs a with
  | NargsNone | NargsStar => inr 1%nat
  | NargsInt 0 => inr 0%nat
  | NargsInt 1 => inr 1%nat
  | NargsInt n => inl (ExpectedArguments (action_name a) (NargsInt n))
  end.

(** [_match_argument] against the plain arguments that follow. *)
Definition match_following (a : argument) (run : list string)
  : error + (list string * list string) :=
  match nargs a with
  | NargsNone =>
      match run with
      | x :: rest => inr ([x], rest)
      | [] => inl (ExpectedArguments (action_name a) NargsNone)
      end
  | NargsStar => inr (run, [])
  | NargsInt n =>
      if (n <=? List.length run)%nat then inr (firstn n run, skipn n run)
      else inl (ExpectedArguments (action_name a) (NargsInt n))
  end.

Section Consume.

Variable p : parser.

(** The loop of [consume_optional] while an explicit argument is attached
    to the option string: a single-dash option that takes no argument
    hands the rest of the token to the option named by its next
    character. *)
Fixpoint consume_explicit (a : argument) (option_string explicit : string)
  (run : list string) : error + (list action_tuple * list string) :=
  match match_explicit a option_string with
  | inl e => inl e
  | inr arg_count =>
      match explicit with
      | String c rest =>
          if (arg_count =? 0)%nat && negb (second_is_dash option_string) then
            let option_string' := String "-" (String c EmptyString) in
            match lookup_option p option_string' with
            | Some a' =>
                let continued :=
                  match rest with
                  | EmptyString =>
                      match match_following a' run with
                      | inl e => inl e
                      | inr (args, leftover) =>
                          inr ([(a', args, option_string')], leftover)
                      end
                  | _ => consume_explicit a' option_string' rest run
                  end in
                match continued with
                | inl e => inl e
                | inr (tuples, leftover) =>
                    inr ((a, [], option_string) :: tuples, leftover)
                end
            | None => inl (IgnoredExplicitArgument (action_name a) explicit)
            end
          else if (arg_count =? 1)%nat then
            inr ([(a, [explicit], option_string)], run)
          else inl (IgnoredExplicitArgument (action_name a) explicit)
      | EmptyString =>
          if (arg_count =? 1)%nat then
            inr ([(a, [explicit], option_string)], run)
          else inl (IgnoredExplicitArgument (action_name a) explicit)
      end
  end.

(** [consume_optional] for a recognised option: the actions to take and
    the plain arguments nobody took. *)
Definition consume_optional (a : argument) (option_string : string)
  (explicit : option string) (run : list string)
  : error + (list action_tuple * list string) :=
  match explicit with
  | Some e => consume_explicit a option_string e run
  | None =>
      match match_following a run with
      | inl e => inl e
      | inr (args, leftover) => inr ([(a, args, option_string)], leftover)
      end
  end.

End Consume.

(** *** Taking an action *)

Section Actions.

(** The builtin [int] applied to a string. *)
Variable py_int : string -> option Z.

(** [_get_value]: the [type] function applied to one argument string. *)
Definition get_value (a : argument) (text : string) : error + value :=
  match type a with
  | TStr => inr (VStr text)
  | TInt =>
      match py_int text with
      | Some z => inr (VInt z)
      | None => inl (InvalidValue (action_name a) text)
      end
  end.

(** [value in action.choices], the choices being strings. *)
Definition in_choices (v : value) (allowed : list string) : bool :=
  match v with
  | VStr s => existsb (String.eqb s) allowed
  | _ => false
  end.

(** [_check_value]. *)
Definition check_value (a : argument) (v : value) : error + unit :=
  match choices a with
  | Some allowed =>
      if in_choices v allowed then inr tt
      else inl (InvalidChoice (action_name a) v allowed)
  | None => inr tt
  end.

Fixpoint get_value_each (a : argument) (texts : list string)
  : error + list value :=
  match texts with
  | [] => inr []
  | t :: rest =>
      match get_value a t with
      | inl e => inl e
      | inr v =>
          match get_value_each a rest with
          | inl e => inl e
          | inr vs => inr (v :: vs)
          end
      end
  end.

Fixpoint check_value_each (a : argument) (vs : list value) : error + unit :=
  match vs with
  | [] => inr tt
  | v :: rest =>
      match check_value a v with
      | inl e => inl e
      | inr _ => check_value_each a rest
      end
  end.

(** [_get_values]: one value for [nargs=None], a list otherwise. *)
Definition get_values (a : argument) (args : list string) : error + value :=
  match nargs a, args with
  | NargsNone, [text] =>
      match get_value a text with
      | inl e => inl e
      | inr v =>
          match check_value a v with
          | inl e => inl e
          | inr _ => inr v
          end
      end
  | _, _ =>
      match get_value_each a args with
      | inl e => inl e
      | inr vs =>
          match check_value_each a vs with
          | inl e => inl e
          | inr _ => inr (VList vs)
          end
      end
  end.

(** The parse in progress: the namespace, the arguments seen so far and
    the strings nobody recognised. *)
Record state : Type := {
  st_namespace : namespace;
  st_seen : list argument;
  st_extras : list string
}.

Inductive step_result : Type :=
| Continue (st : state)
| Stop (why : exit_reason).

(** [take_action]: converts and checks the values, then runs the action. *)
Definition take_action (st : state) (t : action_tuple) : step_result :=
  let '(a, args, _) := t in
  match get_values a args with
  | inl e => Stop (Usage e)
  | inr v =>
      match dest a with
      | None => Stop Help
      | Some d =>
          Continue {| st_namespace := setattr (st_namespace st) d v;
                      st_seen := a :: st_seen st;
                      st_extras := st_extras st |}
      end
  end.

Fixpoint take_actions (st : state) (tuples : list action_tuple)
  : step_result :=
  match tuples with
  | [] => Continue st
  | t :: rest =>
      match take_action st t with
      | Continue st' => take_actions st' rest
      | Stop r => Stop r
      end
  end.

Definition add_extras (st : state) (more : list string) : state :=
  {| st_namespace := st_namespace st;
     st_seen := st_seen st;
     st_extras := (st_extras st ++ more)%list |}.

Section Parse.

Variable p : parser.

(** The action tuples one option group gives rise to, or the error that
    matching its arguments raises. *)
Definition consume_group (g : option_group)
  : error + (list action_tuple * list string) :=
  let '(tok, cls, run) := g in
  match cls with
  | Optional a option_string explicit =>
      consume_optional p a option_string explicit run
  | _ => inr ([], tok :: run)
  end.

(** One turn of the main loop: the next option and its arguments. *)
Definition step (st : state) (g : option_group) : step_result :=
  match consume_group g with
  | inl e => Stop (Usage e)
  | inr (tuples, leftover) =>
      match take_actions st tuples with
      | Continue st' => Continue (add_extras st' leftover)
      | Stop r => Stop r
      end
  end.

Fixpoint run_groups (st : state) (groups : list option_group)
  : step_result :=
  match groups with
  | [] => Continue st
  | g :: rest =>
      match step st g with
      | Continue st' => run_groups st' rest
      | Stop r => Stop r
      end
  end.

Definition flags_eqb (a b : argument) : bool :=
  if list_eq_dec string_dec (flags a) (flags b) then true else false.

Definition seen (st : state) (a : argument) : bool :=
  existsb (flags_eqb a) (st_seen st).

(** A default given as a string goes through the [type] function when
    its argument was absent and not required. *)
Fixpoint convert_defaults (st : state) (actions : list argument)
  (ns : namespace) : error + namespace :=
  match actions with
  | [] => inr ns
  | a :: rest =>
      if seen st a || required a then convert_defaults st rest ns
      else
        match dest a, default a with
        | Some d, VStr s =>
            match get_value a s with
            | inl e => inl e
            | inr v => convert_defaults st rest (setattr ns d v)
            end
        | _, _ => convert_defaults st rest ns
        end
  end.

(** The options of the command line, in order, each with the plain
    arguments that follow it. *)
Definition scan (argv : list string) : list string * list option_group :=
  group_tokens
    (map (fun tok => (tok, parse_optional p tok)) (fst (split_dashdash argv))).

(** The initial state of a parse. *)
Definition initial (argv : list string) : state :=
  {| st_namespace := defaults p [];
     st_seen := [];
     st_extras := fst (scan argv) |}.

(** [parser.parse_args(argv)]. *)
Definition parse_args (argv : list string) : parse_result :=
  let (before, after) := split_dashdash argv in
  let classified := map (fun tok => (tok, parse_optional p tok)) before in
  match first_ambiguous classified with
  | Some e => Exited (Usage e)
  | None =>
      match run_groups (initial argv) (snd (scan argv)) with
      | Stop why => Exited why
      | Continue st =>
          let missing :=
            filter (fun a => required a && negb (seen st a)) p in
          match convert_defaults st p (st_namespace st) with
          | inl e => Exited (Usage e)
          | inr ns =>
              match missing with
              | _ :: _ =>
                  Exited (Usage (RequiredArguments (map action_name missing)))
              | [] =>
                  match (st_extras st ++ after)%list with
                  | [] => Parsed ns
                  | extras => Exited (Usage (UnrecognizedArguments extras))
                  end
              end
          end
      end
  end.

End Parse.

End Actions.

End Argparse.

(** ** Series, figures and observable effects *)

Section Effects.

Variable num : Type.

(** The record [parse_json_file] returns: a dict with keys [name], [xs]
    and [ys]. *)
Record series : Type := {
  name : pyobj num;
  xs : pyobj num;
  ys : pyobj num
}.

(** A line drawn by [ax.plot(x, y, fmt, label=...)]. *)
Record mpl_line : Type := {
  line_x : pyobj num;
  line_y : pyobj num;
  line_fmt : string;
  line_label : pyobj num
}.

(** The state of the matplotlib figure when it is saved or shown. *)
Record mpl_figure : Type := {
  figsize : Z * Z;
  lines : list mpl_line;
  xlabel : string;
  ylabel : string;
  axis_limits : option (list Z);
  legend_loc : string;
  fig_title : option string
}.

(** [go.Scatter(x=..., y=..., name=...)]. *)
Record scatter : Type := {
  sc_x : pyobj num;
  sc_y : pyobj num;
  sc_name : pyobj num
}.

Record plotly_axis : Type := {
  axis_title : string;
  axis_range : Z * Z
}.

(** [go.Layout(title=..., legend=..., xaxis=..., yaxis=...)]. *)
Record plotly_layout : Type := {
  layout_title : option string;
  legend_font_size : Z;
  xaxis : plotly_axis;
  yaxis : plotly_axis
}.

Record plotly_figure : Type := {
  fig_data : list scatter;
  fig_layout : plotly_layout
}.

(** What the process does to the outside world, in order: a call of
    [open] on a path, a line on standard output, the usage error or the
    help text of [argparse], [fig.savefig], [plt.show] and
    [plotly.offline.plot]. *)
Inductive event : Type :=
| Opened (path : string)
| Printed (line : string)
| UsageError (e : Argparse.error)
| HelpPrinted
| SavedFig (fig : mpl_figure) (file : string)
| Shown (fig : mpl_figure)
| PlotlyPlot (fig : plotly_figure) (auto_open : bool) (filename : string).

(** A computation: the events it emitted and how it ended. *)
Definition M (A : Type) : Type := (list event * outcome A)%type.

Definition ret {A : Type} (a : A) : M A := ([], Return a).

Definition raise {A : Type} (e : exn) : M A := ([], Raise e).

Definition emit (ev : event) : M unit := ([ev], Return tt).

Definition bind {A B : Type} (m : M A) (k : A -> M B) : M B :=
  match m with
  | (t, Return a) => let (t', r) := k a in (t ++ t', r)%list
  | (t, Raise e) => (t, Raise e)
  end.

(** A pure step that may raise. *)
Definition lift {A : Type} (r : outcome A) : M A := ([], r).

(** [for x in items: acc.append(f(x))]. *)
Fixpoint for_each {A B : Type} (f : A -> M B) (items : list A) : M (list B) :=
  match items with
  | [] => ret []
  | x :: rest =>
      bind (f x) (fun y => bind (for_each f rest) (fun ys => ret (y :: ys)))
  end.

Definition trace {A : Type} (m : M A) : list event := fst m.

Definition result {A : Type} (m : M A) : outcome A := snd m.

Definition is_opened (ev : event) : bool :=
  match ev with Opened _ => true | _ => false end.

Definition is_plot (ev : event) : bool :=
  match ev with
  | SavedFig _ _ | Shown _ | PlotlyPlot _ _ _ => true
  | _ => false
  end.

End Effects.

Arguments name {num} s.
Arguments xs {num} s.
Arguments ys {num} s.
Arguments Opened {num} path.
Arguments Printed {num} line.
Arguments UsageError {num} e.
Arguments HelpPrinted {num}.
Arguments SavedFig {num} fig file.
Arguments Shown {num} fig.
Arguments PlotlyPlot {num} fig auto_open filename.
Arguments ret {num A} a.
Arguments raise {num A} e.
Arguments emit {num} ev.
Arguments bind {num A B} m k.
Arguments lift {num A} r.
Arguments for_each {num A B} f items.
Arguments trace {num A} m.
Arguments result {num A} m.
Arguments is_opened {num} ev.
Arguments is_plot {num} ev.

Declare Scope py_scope.
Delimit Scope py_scope with py.
Notation "x <- m ;; k" := (bind m (fun x => k))
  (at level 61, m at next level, right associativity) : py_scope.
Notation "m ;;; k" := (bind m (fun _ => k))
  (at level 61, right associativity) : py_scope.

(** ** Operators on Python objects *)

Section Operators.

Context {num : Type}.

(** [x == k] for a string [k]: only a string can be equal to it. *)
Definition eq_str (x : pyobj num) (k : string) : bool :=
  match x with PStr s => s =? k | _ => false end.

(** [k in o] for a string [k]: a key of a dict, an element of a list, a
    substring of a string.  The decoder builds no array, so the last case
    is never met. *)
Definition py_contains (k : string) (o : pyobj num) : outcome bool :=
  match o with
  | PDict entries => Return (dict_mem k entries)
  | PList items => Return (existsb (fun x => eq_str x k) items)
  | PStr s => Return (PyStr.contains k s)
  | PNone | PBool _ | PNum _ => Raise TypeError
  | PNdarray _ => Raise TypeError
  end.

(** [o[k]] for a string [k]. *)
Definition py_getitem (o : pyobj num) (k : string) : outcome (pyobj num) :=
  match o with
  | PDict entries =>
      match dict_get k entries with
      | Some v => Return v
      | None => Raise (KeyError k)
      end
  | PNdarray _ => Raise IndexError
  | _ => Raise TypeError
  end.

(** [o[k] = v] for a string [k]. *)
Definition py_setitem (o : pyobj num) (k : string) (v : pyobj num)
  : outcome (pyobj num) :=
  match o with
  | PDict entries => Return (PDict (dict_set k v entries))
  | PNdarray _ => Raise IndexError
  | _ => Raise TypeError
  end.

(** [o.keys()]. *)
Definition py_keys (o : pyobj num) : outcome (list string) :=
  match o with
  | PDict entries => Return (dict_keys entries)
  | _ => Raise (AttributeError "keys")
  end.

(** [o.get(k, default)]. *)
Definition py_get (o : pyobj num) (k : string) (default : pyobj num)
  : outcome (pyobj num) :=
  match o with
  | PDict entries =>
      match dict_get k entries with
      | Some v => Return v
      | None => Return default
      end
  | _ => Raise (AttributeError "get")
  end.

Context {arith : Arith num}.

(** The decibel conversion of one element: [-10 * log10(1 - value)]. *)
Definition to_db (value : num) : num :=
  num_mul (num_of_int (-10)) (num_log10 (num_sub (num_of_int 1) value)).

(** [-10 * np.log10(1 - np.array(o))] on a flat list of numbers, where
    every operation is elementwise.  For any other shape NumPy either
    broadcasts over a different structure or raises; that is left out of
    the model and reported as [NumpyUnsupported]. *)
Definition np_to_db (o : pyobj num) : outcome (pyobj num) :=
  match o with
  | PList items =>
      match as_numbers items with
      | Some values => Return (PNdarray (map to_db values))
      | None => Raise NumpyUnsupported
      end
  | _ => Raise NumpyUnsupported
  end.

End Operators.

(** ** The parser of result files *)

Section Parser.

Context {num : Type} {arith : Arith num}.

(** The text of each readable file, by path. *)
Variable fs : string -> option string.

(** [json.loads]: the decoded document, or the decoder's error. *)
Variable json_loads : string -> decode_error + pyobj num.

Local Open Scope py_scope.

(** [filepath.open('r')] followed by reading the whole text. *)
Definition open_read (filepath : Path.t) : M num string :=
  emit (Opened (Path.str filepath)) ;;;
  match fs (Path.str filepath) with
  | Some text => ret text
  | None => raise (OSError (Path.str filepath))
  end.

(** The [try]/[except] around [json.load]. *)
Definition load_or_report (filepath : Path.t) (text : string)
  : M num (pyobj num) :=
  match json_loads text with
  | inr data => ret data
  | inl err =>
      emit (Printed ("Error reading file " ++ PyStr.dq
                       ++ Path.str filepath ++ PyStr.dq)) ;;;
      raise (JSONDecodeError err)
  end.

(** ['results' not in data or 'bpp' not in data['results']]. *)
Definition missing_results_or_bpp (data : pyobj num) : M num bool :=
  has_results <- lift (py_contains "results" data) ;;
  if negb has_results then ret true
  else
    results <- lift (py_getitem data "results") ;;
    has_bpp <- lift (py_contains "bpp" results) ;;
    ret (negb has_bpp).

(** The body of [if metric == 'msssim']: the converted array replaces the
    metric's entry inside [data['results']], which is the same object the
    document holds. *)
Definition convert_to_db (data : pyobj num) (metric : string)
  : M num (pyobj num) :=
  results <- lift (py_getitem data "results") ;;
  stored <- lift (py_getitem results metric) ;;
  converted <- lift (np_to_db stored) ;;
  results' <- lift (py_setitem results metric converted) ;;
  lift (py_setitem data "results" results').

Definition parse_json_file (filepath metric : string) : M num (series num) :=
  let filepath := Path.of_string filepath in
  let name := hd "" (PyStr.split "." (Path.name filepath)) in
  text <- open_read filepath ;;
  data <- load_or_report filepath text ;;
  invalid <- missing_results_or_bpp data ;;
  if invalid then
    raise (ValueError ("Invalid file " ++ PyStr.dq
                         ++ Path.str filepath ++ PyStr.dq))
  else
    results <- lift (py_getitem data "results") ;;
    has_metric <- lift (py_contains metric results) ;;
    if negb has_metric then
      results <- lift (py_getitem data "results") ;;
      keys <- lift (py_keys results) ;;
      raise (ValueError ("Error: metric " ++ PyStr.dq ++ metric ++ PyStr.dq
                           ++ " not available."
                           ++ " Available metrics: " ++ PyStr.join ", " keys))
    else
      data <- (if metric =? "msssim" then convert_to_db data metric
               else ret data) ;;
      name <- lift (py_get data "name" (PStr name)) ;;
      results <- lift (py_getitem data "results") ;;
      xs <- lift (py_getitem results "bpp") ;;
      results <- lift (py_getitem data "results") ;;
      ys <- lift (py_getitem results metric) ;;
      ret {| name := name; xs := xs; ys := ys |}.

End Parser.

(** ** Renderers *)

Section Renderers.

Context {num : Type}.

(** Whether [plotly] could be imported when the module was loaded. *)
Variable plotly_installed : bool.

Local Open Scope py_scope.

(** The truth value of an optional string: [None] and [''] are false. *)
Definition truthy (s : option string) : bool :=
  match s with
  | Some EmptyString | None => false
  | Some _ => true
  end.

(** [limits[i]]. *)
Definition subscript (limits : option (list Z)) (i : nat) : outcome Z :=
  match limits with
  | None => Raise TypeError
  | Some items =>
      match nth_error items i with
      | Some z => Return z
      | None => Raise IndexError
      end
  end.

Definition matplotlib_plt (scatters : list (series num))
  (title : option string) (ylabel : string) (output_file : option string)
  (limits : option (list Z)) : M num unit :=
  let fig := {|
    figsize := (9, 6)%Z;
    lines :=
      map (fun sc => {| line_x := xs sc; line_y := ys sc;
                        line_fmt := ".-"; line_label := name sc |}) scatters;
    xlabel := "Bit-rate [bpp]";
    ylabel := ylabel;
    axis_limits := limits;
    legend_loc := "lower right";
    fig_title := if truthy title then title else None
  |} in
  (match output_file with
   | Some (String _ _ as file) => emit (SavedFig fig file)
   | Some EmptyString | None => ret tt
   end) ;;;
  emit (Shown fig).

(** [output_file or 'plot.html']. *)
Definition filename_or_default (output_file : option string) : string :=
  match output_file with
  | Some (String _ _ as file) => file
  | Some EmptyString | None => "plot.html"
  end.

(** The names [go] and [plotly] are bound only when the import at the top
    of the module succeeded. *)
Definition plotly_plt (scatters : list (series num))
  (title : option string) (ylabel : string) (output_file : option string)
  (limits : option (list Z)) : M num unit :=
  scatters <-
    match scatters with
    | [] => ret []
    | _ :: _ =>
        if plotly_installed then
          ret (map (fun sc => {| sc_x := xs sc; sc_y := ys sc;
                                 sc_name := name sc |}) scatters)
        else raise (NameError "go")
    end ;;
  (if plotly_installed then ret tt else raise (NameError "plotly")) ;;;
  xmin <- lift (subscript limits 0) ;;
  xmax <- lift (subscript limits 1) ;;
  ymin <- lift (subscript limits 2) ;;
  ymax <- lift (subscript limits 3) ;;
  emit (PlotlyPlot
          {| fig_data := scatters;
             fig_layout := {|
               layout_title := title;
               legend_font_size := 14;
               xaxis := {| axis_title := "Bit-rate [bpp]";
                           axis_range := (xmin, xmax) |};
               yaxis := {| axis_title := ylabel;
                           axis_range := (ymin, ymax) |}
             |} |}
          false
          (filename_or_default output_file)).

End Renderers.

(** ** Command line *)

Section Main.

Context {num : Type} {arith : Arith num}.

Variable fs : string -> option string.
Variable json_loads : string -> decode_error + pyobj num.
Variable plotly_installed : bool.
Variable py_int : string -> option Z.

Import Argparse.
Local Open Scope py_scope.

(** The module-level list, extended when [plotly] imports. *)
Definition _backends : list string :=
  "matplotlib" :: (if plotly_installed then ["plotly"] else []).

Definition add_argument (p : parser) (a : argument) : parser :=
  (p ++ [a])%list.

(** The parser of the command line; [metavar] and [help] only shape the
    help text and are left out. *)
Definition setup_args : parser :=
  let parser := ArgumentParser in
  let parser := add_argument parser {|
    action := StoreAction;
    flags := ["-f"; "--results-file"];
    default := VStr "";
    type := TStr;
    nargs := NargsStar;
    choices := None;
    required := true |} in
  let parser := add_argument parser {|
    action := StoreAction;
    flags := ["-m"; "--metric"];
    type := TStr;
    default := VStr "psnr";
    nargs := NargsNone;
    choices := None;
    required := false |} in
  let parser := add_argument parser {|
    action := StoreAction;
    flags := ["-t"; "--title"];
    type := TStr;
    default := VNone;
    nargs := NargsNone;
    choices := None;
    required := false |} in
  let parser := add_argument parser {|
    action := StoreAction;
    flags := ["-o"; "--output"];
    type := TStr;
    default := VNone;
    nargs := NargsNone;
    choices := None;
    required := false |} in
  let parser := add_argument parser {|
    action := StoreAction;
    flags := ["--axes"];
    type := TInt;
    nargs := NargsInt 4;
    default := VList [VInt 0; VInt 2; VInt 28; VInt 43];
    choices := None;
    required := false |} in
  let parser := add_argument parser {|
    action := StoreAction;
    flags := ["--backend"];
    type := TStr;
    default := VStr (hd "" _backends);
    choices := Some _backends;
    nargs := NargsNone;
    required := false |} in
  parser.

(** [parse_args] prints and exits the process on a usage error or on
    [-h]. *)
Definition parse_args_or_exit (p : parser) (argv : list string)
  : M num namespace :=
  match parse_args py_int p argv with
  | Parsed ns => ret ns
  | Exited Help => emit HelpPrinted ;;; raise (SystemExit 0)
  | Exited (Usage e) => emit (UsageError e) ;;; raise (SystemExit 2)
  end.

(** [args.attr]. *)
Definition attribute (ns : namespace) (attr : string) : outcome value :=
  match getattr ns attr with
  | Some v => Return v
  | None => Raise (AttributeError attr)
  end.

(** The characters of a string, one string each. *)
Fixpoint characters (s : string) : list string :=
  match s with
  | EmptyString => []
  | String c rest => String c EmptyString :: characters rest
  end.

(** The strings a [for] loop over [args.results_file] visits; each one is
    handed to [Path], which accepts nothing but a string. *)
Definition iter_strings (v : value) : outcome (list string) :=
  match v with
  | VList items =>
      fold_right
        (fun item acc =>
           match item, acc with
           | VStr s, Return rest => Return (s :: rest)
           | _, _ => Raise TypeError
           end)
        (Return []) items
  | VStr s => Return (characters s)
  | VNone | VInt _ => Raise TypeError
  end.

Definition as_string (v : value) : outcome string :=
  match v with VStr s => Return s | _ => Raise TypeError end.

Definition as_optional_string (v : value) : outcome (option string) :=
  match v with
  | VNone => Return None
  | VStr s => Return (Some s)
  | _ => Raise TypeError
  end.

Definition as_limits (v : value) : outcome (option (list Z)) :=
  match v with
  | VNone => Return None
  | VList items =>
      fold_right
        (fun item acc =>
           match item, acc with
           | VInt z, Return (Some rest) => Return (Some (z :: rest))
           | _, _ => Raise TypeError
           end)
        (Return (Some [])) items
  | _ => Raise TypeError
  end.

(** The renderer signature and the name-to-function map of [main]. *)
Definition renderer : Type :=
  list (series num) -> option string -> string -> option string ->
  option (list Z) -> M num unit.

Definition func_map : list (string * renderer) :=
  [("matplotlib", matplotlib_plt); ("plotly", plotly_plt plotly_installed)].

Fixpoint func_map_get (m : list (string * renderer)) (k : string)
  : outcome renderer :=
  match m with
  | [] => Raise (KeyError k)
  | (k', f) :: rest => if k' =? k then Return f else func_map_get rest k
  end.

Definition main (argv : list string) : M num unit :=
  args <- parse_args_or_exit setup_args argv ;;
  results_file <- lift (attribute args "results_file") ;;
  files <- lift (iter_strings results_file) ;;
  scatters <-
    for_each
      (fun f =>
         metric <- lift (attribute args "metric") ;;
         metric <- lift (as_string metric) ;;
         parse_json_file fs json_loads f metric)
      files ;;
  ylabel <- lift (attribute args "metric") ;;
  ylabel <- lift (as_string ylabel) ;;
  backend <- lift (attribute args "backend") ;;
  backend <- lift (as_string backend) ;;
  plot <- lift (func_map_get func_map backend) ;;
  title <- lift (attribute args "title") ;;
  title <- lift (as_optional_string title) ;;
  output <- lift (attribute args "output") ;;
  output <- lift (as_optional_string output) ;;
  axes <- lift (attribute args "axes") ;;
  axes <- lift (as_limits axes) ;;
  plot scatters title ylabel output axes.

End Main.

(** ** Vocabulary of the specification *)

Section Vocabulary.

Context {num : Type}.

Variable fs : string -> option string.
Variable json_loads : string -> decode_error + pyobj num.

(** The file at [filepath] is readable and decodes to [doc]. *)
Definition decodes_to (filepath : string) (doc : pyobj num) : Prop :=
  exists text,
    fs (Path.str (Path.of_string filepath)) = Some text /\
    json_loads text = inr doc.

(** The file at [filepath] is readable and its content is rejected by the
    decoder with [err]. *)
Definition fails_to_decode (filepath : string) (err : decode_error) : Prop :=
  exists text,
    fs (Path.str (Path.of_string filepath)) = Some text /\
    json_loads text = inl err.

(** A well-formed result file: a document whose [results] mapping holds a
    [bpp] entry. *)
Definition well_formed (doc : pyobj num) (results : dict num)
  (bpp : pyobj num) : Prop :=
  exists entries,
    doc = PDict entries /\
    dict_get "results" entries = Some (PDict results) /\
    dict_get "bpp" results = Some bpp.

(** [doc['name']] when the document has that key. *)
Definition name_field (doc : pyobj num) : option (pyobj num) :=
  match doc with
  | PDict entries => dict_get "name" entries
  | _ => None
  end.

(** A metric's series as stored in the file: a flat list of numbers. *)
Definition number_series (o : pyobj num) (values : list num) : Prop :=
  exists items, o = PList items /\ as_numbers items = Some values.

(** Two sequences of the same length. *)
Definition equal_length (a b : pyobj num) : Prop :=
  exists n, py_len a = Some n /\ py_len b = Some n.

End Vocabulary.

(** The metrics whose values are similarity scores in [[0,1)]: the
    multi-scale structural similarity, known by its name. *)
Definition similarity_metric (metric : string) : Prop := metric = "msssim".

(** What the default series name is: the file name up to its first dot. *)
Definition name_before_first_dot (filepath : string) : string :=
  hd "" (PyStr.split "." (Path.name (Path.of_string filepath))).

(** A string without a dot. *)
Fixpoint dotless (s : string) : bool :=
  match s with
  | EmptyString => true
  | String c rest => negb (Ascii.eqb c ".") && dotless rest
  end.

(** A file name made of a base and one extension, like [codec.json]. *)
Definition single_extension (n : string) : Prop :=
  exists base ext,
    n = base ++ "." ++ ext /\
    dotless base = true /\ dotless ext = true /\
    base <> "" /\ ext <> "".


(** The name a series gets: the document's, or else the file's. *)
Definition series_name {num : Type} (filepath : string) (doc : pyobj num)
  : pyobj num :=
  match name_field doc with
  | Some v => v
  | None => PStr (name_before_first_dot filepath)
  end.

(** A computation that neither saves, shows nor writes a chart. *)
Definition draws_nothing {num A : Type} (m : M num A) : Prop :=
  forallb (fun ev => negb (is_plot ev)) (trace m) = true.


(** ** A small world to run the program in *)

Module Example.

Local Open Scope R_scope.

Definition q (s : string) : string := (PyStr.dq ++ s ++ PyStr.dq)%string.

(** A complete result file. *)
Definition hyperprior_text : string :=
  ("{" ++ q "name" ++ ": " ++ q "hyperprior" ++ ", " ++ q "results" ++ ": {"
   ++ q "bpp" ++ ": [0.1, 0.2], " ++ q "psnr" ++ ": [30, 31], "
   ++ q "msssim" ++ ": [0.9, 0.99]}}")%string.

Definition hyperprior_doc : pyobj R :=
  PDict [("name", PStr "hyperprior");
         ("results",
          PDict [("bpp", PList [PNum 0.1; PNum 0.2]);
                 ("psnr", PList [PNum 30; PNum 31]);
                 ("msssim", PList [PNum 0.9; PNum 0.99])])].

(** A file without a name whose [psnr] series is shorter than its [bpp]
    series. *)
Definition short_text : string :=
  ("{" ++ q "results" ++ ": {" ++ q "bpp" ++ ": [0.1, 0.2], "
   ++ q "psnr" ++ ": [30]}}")%string.

Definition short_doc : pyobj R :=
  PDict [("results",
          PDict [("bpp", PList [PNum 0.1; PNum 0.2]);
                 ("psnr", PList [PNum 30])])].

(** A single similarity score. *)
Definition msssim_text : string :=
  ("{" ++ q "results" ++ ": {" ++ q "bpp" ++ ": [0.5], "
   ++ q "msssim" ++ ": [0.9]}}")%string.

Definition msssim_doc : pyobj R :=
  PDict [("results",
          PDict [("bpp", PList [PNum 0.5]);
                 ("msssim", PList [PNum 0.9])])].

(** A document without [bpp], one without [results]. *)
Definition no_bpp_text : string :=
  ("{" ++ q "results" ++ ": {" ++ q "psnr" ++ ": [30]}}")%string.

Definition no_bpp_doc : pyobj R :=
  PDict [("results", PDict [("psnr", PList [PNum 30])])].

Definition no_results_text : string :=
  ("{" ++ q "name" ++ ": " ++ q "empty" ++ "}")%string.

Definition no_results_doc : pyobj R := PDict [("name", PStr "empty")].

(** Not JSON: the closing brace is missing. *)
Definition broken_text : string := ("{" ++ q "results" ++ ": ")%string.

Definition broken_error : decode_error := {|
  err_msg := "Expecting value";
  err_doc := broken_text;
  err_pos := 12
|}.

Definition files : list (string * string) :=
  [("results/hyperprior.json", hyperprior_text);
   ("results/model.v2.json", short_text);
   ("msssim.json", msssim_text);
   ("no-bpp.json", no_bpp_text);
   ("no-results.json", no_results_text);
   ("broken.json", broken_text)].

Definition documents : list (string * (decode_error + pyobj R)) :=
  [(hyperprior_text, inr hyperprior_doc);
   (short_text, inr short_doc);
   (msssim_text, inr msssim_doc);
   (no_bpp_text, inr no_bpp_doc);
   (no_results_text, inr no_results_doc);
   (broken_text, inl broken_error)].

Fixpoint assoc {A : Type} (k : string) (table : list (string * A))
  : option A :=
  match table with
  | [] => None
  | (k', v) :: rest => if (k' =? k)%string then Some v else assoc k rest
  end.

Definition fs (path : string) : option string := assoc path files.

Definition json_loads (text : string) : decode_error + pyobj R :=
  match assoc text documents with
  | Some r => r
  | None => inl {| err_msg := "Expecting value"; err_doc := text;
                   err_pos := 0 |}
  end.

(** Decimal integers with an optional sign. *)
Fixpoint digits_value (s : string) (acc : Z) : option Z :=
  match s with
  | EmptyString => Some acc
  | String c rest =>
      if Argparse.is_digit c
      then digits_value rest (10 * acc + Z.of_nat (nat_of_ascii c) - 48)%Z
      else None
  end.

Definition py_int (s : string) : option Z :=
  match s with
  | EmptyString => None
  | String "-" (String _ _ as body) =>
      option_map Z.opp (digits_value body 0%Z)
  | _ => digits_value s 0%Z
  end.

(** The program with [plotly] installed. *)
Definition parse (filepath metric : string) : M R (series R) :=
  parse_json_file fs json_loads filepath metric.

Definition run (argv : list string) : M R unit :=
  main fs json_loads true py_int argv.

End Example.

(** ** Further vocabulary *)

(** The path as [Path] prints it, which is the path that is opened. *)
Definition normalised (filepath : string) : string :=
  Path.str (Path.of_string filepath).

(** A string in which the character [c] does not occur. *)
Fixpoint lacks (c : ascii) (s : string) : bool :=
  match s with
  | EmptyString => true
  | String c' rest => negb (Ascii.eqb c' c) && lacks c rest
  end.

(** A computation that emits nothing at all. *)
Definition silent {num A : Type} (m : M num A) : Prop := trace m = [].

(** A document that is no container: [null], a boolean or a number. *)
Definition scalar {num : Type} (o : pyobj num) : Prop :=
  match o with
  | PNone | PBool _ | PNum _ => True
  | _ => False
  end.

(** The argument strings an action was handed fit its [nargs]. *)
Definition arity_ok (t : Argparse.action_tuple) : Prop :=
  let '(a, args, _) := t in
  match Argparse.nargs a with
  | Argparse.NargsNone => List.length args = 1%nat
  | Argparse.NargsStar => True
  | Argparse.NargsInt n => List.length args = n
  end.

(** The attribute [attr] of [ns] exists and satisfies [P]. *)
Definition getattr_is (ns : Argparse.namespace) (attr : string)
  (P : Argparse.value -> Prop) : Prop :=
  exists v, Argparse.getattr ns attr = Some v /\ P v.

(** [None] or a string. *)
Definition optional_string (v : Argparse.value) : Prop :=
  v = Argparse.VNone \/ exists s, v = Argparse.VStr s.

(** The attributes of a namespace while the command line is being read:
    every attribute has the type its argument declares, except that
    [results_file] may still hold its default, the empty string. *)
Record typed_namespace (backends : list string) (ns : Argparse.namespace)
  : Prop := {
  typed_results_file :
    getattr_is ns "results_file"
      (fun v => v = Argparse.VStr "" \/
                exists files, v = Argparse.VList (map Argparse.VStr files));
  typed_metric :
    getattr_is ns "metric" (fun v => exists s, v = Argparse.VStr s);
  typed_title : getattr_is ns "title" optional_string;
  typed_output : getattr_is ns "output" optional_string;
  typed_axes :
    getattr_is ns "axes"
      (fun v => exists xmin xmax ymin ymax,
           v = Argparse.VList [Argparse.VInt xmin; Argparse.VInt xmax;
                               Argparse.VInt ymin; Argparse.VInt ymax]);
  typed_backend :
    getattr_is ns "backend"
      (fun v => exists s, v = Argparse.VStr s /\ In s backends)
}.

(** What [main] reads off the namespace, with the types the parser
    guarantees. *)
Record arguments : Type := {
  arg_files : list string;
  arg_metric : string;
  arg_title : option string;
  arg_output : option string;
  arg_axes : Z * Z * Z * Z;
  arg_backend : string
}.

Definition optional_value (s : option string) : Argparse.value :=
  match s with
  | Some text => Argparse.VStr text
  | None => Argparse.VNone
  end.

Definition axes_list (axes : Z * Z * Z * Z) : list Z :=
  let '(xmin, xmax, ymin, ymax) := axes in [xmin; xmax; ymin; ymax].

(** The namespace [ns] holds exactly the arguments [a]. *)
Definition holds (ns : Argparse.namespace) (a : arguments) : Prop :=
  Argparse.getattr ns "results_file"
    = Some (Argparse.VList (map Argparse.VStr (arg_files a))) /\
  Argparse.getattr ns "metric" = Some (Argparse.VStr (arg_metric a)) /\
  Argparse.getattr ns "title" = Some (optional_value (arg_title a)) /\
  Argparse.getattr ns "output" = Some (optional_value (arg_output a)) /\
  Argparse.getattr ns "axes"
    = Some (Argparse.VList (map Argparse.VInt (axes_list (arg_axes a)))) /\
  Argparse.getattr ns "backend" = Some (Argparse.VStr (arg_backend a)).

(** The events of a trace that open a file. *)
Definition opened_paths {num : Type} (t : list (event num)) : list string :=
  flat_map (fun ev => match ev with Opened p => [p] | _ => [] end) t.

(** The events of a trace that save, show or write a chart. *)
Definition plots {num : Type} (t : list (event num)) : list (event num) :=
  filter is_plot t.

(** The [-f/--results-file] argument of [setup_args]. *)
Definition results_file_argument : Argparse.argument := {|
  Argparse.action := Argparse.StoreAction;
  Argparse.flags := ["-f"; "--results-file"];
  Argparse.default := Argparse.VStr "";
  Argparse.type := Argparse.TStr;
  Argparse.nargs := Argparse.NargsStar;
  Argparse.choices := None;
  Argparse.required := true
|}.

(** What holds of the parse of a command line at every turn of its loop:
    the namespace is typed, and once [-f] has been seen [results_file] is
    a list of strings. *)
Definition parse_invariant (backends : list string) (st : Argparse.state)
  : Prop :=
  typed_namespace backends (Argparse.st_namespace st) /\
  (Argparse.seen st results_file_argument = true ->
   getattr_is (Argparse.st_namespace st) "results_file"
     (fun v => exists files, v = Argparse.VList (map Argparse.VStr files))).

(** The renderer [main] picks for a backend name. *)
Definition renderer_of {num : Type} (plotly_installed : bool)
  (backend : string) : option (renderer (num:=num)) :=
  if backend =? "matplotlib" then Some matplotlib_plt
  else if backend =? "plotly" then Some (plotly_plt plotly_installed)
  else None.

(** A command-line token that does not begin with a dash. *)
Definition plain (tok : string) : Prop := Argparse.first_is_dash tok = false.

(** ** Files that are not result files *)

Module Edge.

(** A document that is a list, and one whose [results] is [null]. *)
Definition list_text : string := "[1, 2]".

Definition list_doc : pyobj R := PList [PNum 1%R; PNum 2%R].

Definition null_results_text : string :=
  ("{" ++ Example.q "results" ++ ": null}")%string.

Definition null_results_doc : pyobj R := PDict [("results", PNone)].

Definition files : list (string * string) :=
  [("list.json", list_text); ("null-results.json", null_results_text)].

Definition documents : list (string * (decode_error + pyobj R)) :=
  [(list_text, inr list_doc); (null_results_text, inr null_results_doc)].

Definition fs (path : string) : option string := Example.assoc path files.

Definition json_loads (text : string) : decode_error + pyobj R :=
  match Example.assoc text documents with
  | Some r => r
  | None => inl {| err_msg := "Expecting value"; err_doc := text;
                   err_pos := 0 |}
  end.

Definition parse (filepath metric : string) : M R (series R) :=
  parse_json_file fs json_loads filepath metric.

End Edge.

(** * Properties *)

(** ** Dictionaries *)

Section DictFacts.

Context {num : Type}.

Implicit Types (d : dict num) (k : string) (v : pyobj num).

Lemma dict_mem_true d k v : dict_get k d = Some v -> dict_mem k d = true.
Proof. unfold dict_mem. now intros ->. Qed.

Lemma dict_mem_false d k : dict_get k d = None -> dict_mem k d = false.
Proof. unfold dict_mem. now intros ->. Qed.

Lemma dict_get_set_same d k v : dict_get k (dict_set k v d) = Some v.
Proof.
  induction d as [|[k' v'] d IH]; simpl.
  - now rewrite String.eqb_refl.
  - destruct (k' =? k) eqn:E; simpl; rewrite E; auto.
Qed.

Lemma dict_get_set_other d k k' v :
  k <> k' -> dict_get k' (dict_set k v d) = dict_get k' d.
Proof.
  intros Hne. induction d as [|[k0 v0] d IH]; simpl.
  - apply String.eqb_neq in Hne. now rewrite Hne.
  - destruct (k0 =? k) eqn:E; simpl.
    + apply String.eqb_eq in E. subst k0.
      apply String.eqb_neq in Hne. now rewrite Hne.
    + now rewrite IH.
Qed.

Lemma dict_keys_get d k : In k (dict_keys d) <-> dict_get k d <> None.
Proof.
  induction d as [|[k' v'] d IH]; simpl.
  - split; [tauto | congruence].
  - destruct (k' =? k) eqn:E.
    + apply String.eqb_eq in E. split; [congruence | auto].
    + apply String.eqb_neq in E. rewrite <- IH. tauto.
Qed.

Lemma as_numbers_map (values : list num) :
  as_numbers (map PNum values) = Some values.
Proof. induction values as [|x values IH]; simpl; [|rewrite IH]; auto. Qed.

Lemma as_numbers_length (items : list (pyobj num)) (values : list num) :
  as_numbers items = Some values -> length values = length items.
Proof.
  revert values. induction items as [|x items IH]; simpl; intros values H.
  - now inversion H.
  - destruct x; try discriminate.
    destruct (as_numbers items) eqn:E; try discriminate.
    inversion H; subst. simpl. now rewrite (IH l).
Qed.

End DictFacts.

(** ** Computations that draw nothing *)

Section Quiet.

Context {num : Type}.

Lemma quiet_bind {A B : Type} (m : M num A) (k : A -> M num B) :
  draws_nothing m -> (forall a, draws_nothing (k a)) ->
  draws_nothing (bind m k).
Proof.
  unfold draws_nothing, trace, bind. destruct m as [t [a|e]]; cbn; auto.
  intros Ht Hk. specialize (Hk a). destruct (k a) as [t' r]. cbn in *.
  rewrite forallb_app, Ht, Hk. reflexivity.
Qed.

Lemma quiet_lift {A : Type} (r : outcome A) : draws_nothing (lift (num:=num) r).
Proof. reflexivity. Qed.

Lemma quiet_ret {A : Type} (a : A) : draws_nothing (ret (num:=num) a).
Proof. reflexivity. Qed.

Lemma quiet_raise {A : Type} (e : exn) :
  draws_nothing (raise (num:=num) (A:=A) e).
Proof. reflexivity. Qed.

Lemma quiet_emit (ev : event num) :
  is_plot ev = false -> draws_nothing (emit ev).
Proof. unfold draws_nothing. cbn. now intros ->. Qed.

Lemma quiet_for_each {A B : Type} (f : A -> M num B) (items : list A) :
  (forall x, draws_nothing (f x)) -> draws_nothing (for_each f items).
Proof.
  intros Hf. induction items as [|x items IH]; cbn.
  - reflexivity.
  - apply quiet_bind; auto. intros y. apply quiet_bind; auto.
    intros. apply quiet_ret.
Qed.

End Quiet.

(** Walks through a computation that only reads and prints. *)
Ltac quiet :=
  repeat first
    [ apply quiet_lift | apply quiet_ret | apply quiet_raise
    | apply quiet_emit; reflexivity
    | apply quiet_bind; [| intro ]
    | match goal with
      | |- draws_nothing (if ?b then _ else _) => destruct b
      | |- draws_nothing (match ?x with _ => _ end) => destruct x
      end ].

(** ** The parser, case by case *)

Section ParserFacts.

Context {num : Type} {arith : Arith num}.

Variable fs : string -> option string.
Variable json_loads : string -> decode_error + pyobj num.

(** Unfolds the monad and computes. *)
Ltac run :=
  cbv beta delta
    [parse_json_file open_read load_or_report
     missing_results_or_bpp convert_to_db bind lift ret raise emit];
  cbn beta iota zeta.

(** Rewrites with the facts at hand until the program has run. *)
Ltac crunch :=
  repeat first
    [ progress cbn
    | rewrite dict_get_set_same
    | rewrite dict_get_set_other by discriminate
    | match goal with
      | H : fs _ = _ |- _ => rewrite H
      | H : json_loads _ = _ |- _ => rewrite H
      | H : dict_get _ _ = Some _ |- _ =>
          first [rewrite (dict_mem_true _ _ _ H) | rewrite H]
      | H : dict_get _ _ = None |- _ =>
          first [rewrite (dict_mem_false _ _ H) | rewrite H]
      | H : as_numbers _ = _ |- _ => rewrite H
      | H : (_ =? _) = _ |- _ => rewrite H
      end ].

(** A rejected document: printed, then raised again. *)
Lemma parse_undecodable filepath metric err :
  fails_to_decode fs json_loads filepath err ->
  parse_json_file fs json_loads filepath metric =
    ([Opened (Path.str (Path.of_string filepath));
      Printed ("Error reading file " ++ PyStr.dq
                 ++ Path.str (Path.of_string filepath) ++ PyStr.dq)],
     Raise (JSONDecodeError err)).
Proof.
  intros (text & Hopen & Hload). run. crunch. reflexivity.
Qed.

(** No [results], or no [bpp] inside it. *)
Lemma parse_invalid filepath metric entries :
  decodes_to fs json_loads filepath (PDict entries) ->
  dict_get "results" entries = None \/
  (exists results,
      dict_get "results" entries = Some (PDict results) /\
      dict_get "bpp" results = None) ->
  parse_json_file fs json_loads filepath metric =
    ([Opened (Path.str (Path.of_string filepath))],
     Raise (ValueError ("Invalid file " ++ PyStr.dq
                          ++ Path.str (Path.of_string filepath)
                          ++ PyStr.dq))).
Proof.
  intros (text & Hopen & Hload) H. run.
  destruct H as [Hres | (results & Hres & Hbpp)]; crunch; reflexivity.
Qed.

(** A [results] entry that is no container cannot be searched for [bpp]:
    the membership test itself raises. *)
Remark parse_scalar_results filepath metric entries n :
  decodes_to fs json_loads filepath (PDict entries) ->
  dict_get "results" entries = Some (PNum n) ->
  parse_json_file fs json_loads filepath metric =
    ([Opened (Path.str (Path.of_string filepath))], Raise TypeError).
Proof.
  intros (text & Hopen & Hload) Hres. run. crunch. reflexivity.
Qed.

(** The requested metric is not in the file. *)
Lemma parse_missing_metric filepath metric doc results bpp :
  decodes_to fs json_loads filepath doc ->
  well_formed doc results bpp ->
  dict_get metric results = None ->
  parse_json_file fs json_loads filepath metric =
    ([Opened (Path.str (Path.of_string filepath))],
     Raise (ValueError ("Error: metric " ++ PyStr.dq ++ metric ++ PyStr.dq
                          ++ " not available." ++ " Available metrics: "
                          ++ PyStr.join ", " (dict_keys results)))).
Proof.
  intros (text & Hopen & Hload) (entries & -> & Hres & Hbpp) Hmetric. run.
  crunch. reflexivity.
Qed.

(** A metric other than [msssim] is handed over as stored. *)
Lemma parse_plain filepath metric doc results bpp stored :
  decodes_to fs json_loads filepath doc ->
  well_formed doc results bpp ->
  dict_get metric results = Some stored ->
  metric <> "msssim" ->
  parse_json_file fs json_loads filepath metric =
    ([Opened (Path.str (Path.of_string filepath))],
     Return {| name := series_name filepath doc; xs := bpp; ys := stored |}).
Proof.
  intros (text & Hopen & Hload) (entries & -> & Hres & Hbpp) Hmetric Hne. run.
  apply String.eqb_neq in Hne. crunch.
  unfold series_name, name_field, name_before_first_dot.
  destruct (dict_get "name" entries); reflexivity.
Qed.

(** [msssim] is converted element by element. *)
Lemma parse_msssim filepath doc results bpp stored values :
  decodes_to fs json_loads filepath doc ->
  well_formed doc results bpp ->
  dict_get "msssim" results = Some stored ->
  number_series stored values ->
  parse_json_file fs json_loads filepath "msssim" =
    ([Opened (Path.str (Path.of_string filepath))],
     Return {| name := series_name filepath doc; xs := bpp;
               ys := PNdarray (map to_db values) |}).
Proof.
  intros (text & Hopen & Hload) (entries & -> & Hres & Hbpp) Hmetric
    (items & -> & Hnum). run. crunch.
  unfold series_name, name_field, name_before_first_dot.
  destruct (dict_get "name" entries); reflexivity.
Qed.

(** Splits on the tests the program still has to make. *)
Ltac dead :=
  run; crunch;
  repeat (match goal with
          | |- context [if ?b then _ else _] => destruct b eqn:?
          | |- context [match dict_get ?k ?d with _ => _ end] =>
              destruct (dict_get k d) eqn:?
          end; crunch);
  try discriminate.

(** Whatever comes back as a series was read from a well-formed file that
    holds the metric. *)
Lemma parse_returns filepath metric s :
  result (parse_json_file fs json_loads filepath metric) = Return s ->
  exists doc results bpp stored,
    decodes_to fs json_loads filepath doc /\
    well_formed doc results bpp /\
    dict_get metric results = Some stored /\
    name s = series_name filepath doc /\
    xs s = bpp /\
    ((metric <> "msssim" /\ ys s = stored) \/
     (metric = "msssim" /\
      exists values,
        number_series stored values /\ ys s = PNdarray (map to_db values))).
Proof.
  destruct (fs (Path.str (Path.of_string filepath))) as [text|] eqn:Hopen;
    [| intros H; revert H; dead ].
  destruct (json_loads text) as [err|doc] eqn:Hload;
    [ intros H; revert H; dead |].
  assert (Hdec : decodes_to fs json_loads filepath doc) by (exists text; auto).
  destruct doc as [| | | | |entries|]; try (intros H; revert H; dead; fail).
  destruct (dict_get "results" entries) as [r|] eqn:Hres.
  2:{ rewrite (parse_invalid _ metric _ Hdec) by auto. discriminate. }
  destruct r as [| | | | |results|]; try (intros H; revert H; dead; fail).
  destruct (dict_get "bpp" results) as [bpp|] eqn:Hbpp.
  2:{ rewrite (parse_invalid _ metric _ Hdec) by eauto. discriminate. }
  assert (Hwf : well_formed (PDict entries) results bpp)
    by (exists entries; auto).
  destruct (dict_get metric results) as [stored|] eqn:Hmetric.
  2:{ rewrite (parse_missing_metric _ _ _ _ _ Hdec Hwf Hmetric).
      discriminate. }
  destruct (string_dec metric "msssim") as [->|Hne].
  - destruct stored as [| | | |items| |];
      try (intros H; revert H; dead; fail).
    destruct (as_numbers items) as [values|] eqn:Hnum;
      [| intros H; revert H; dead ].
    assert (Hser : number_series (PList items) values)
      by (exists items; auto).
    rewrite (parse_msssim _ _ _ _ _ _ Hdec Hwf Hmetric Hser).
    intros [= <-]. exists (PDict entries), results, bpp, (PList items).
    repeat split; auto. right. split; auto. exists values. auto.
  - rewrite (parse_plain _ _ _ _ _ _ Hdec Hwf Hmetric Hne).
    intros [= <-]. exists (PDict entries), results, bpp, stored.
    repeat split; auto.
Qed.

(** The parser opens its file, prints at most one line, and draws
    nothing. *)
Lemma parse_draws_nothing filepath metric :
  draws_nothing (parse_json_file fs json_loads filepath metric).
Proof.
  unfold parse_json_file, open_read, load_or_report,
    missing_results_or_bpp, convert_to_db.
  quiet.
Qed.

End ParserFacts.

(** ** What [parse_json_file] guarantees *)

Section ParserClaims.

Context {num : Type} {arith : Arith num}.

Variable fs : string -> option string.
Variable json_loads : string -> decode_error + pyobj num.

(** C1: when the requested metric is a similarity score, which the parser
    recognises by its name [msssim], the series [ys] is the stored
    sequence transformed elementwise by [-10 * log10(1 - value)]; for
    every other metric [ys] is exactly the sequence stored in the file. *)
Theorem parse_json_file_transforms_similarity_only
  filepath metric doc results bpp stored :
  decodes_to fs json_loads filepath doc ->
  well_formed doc results bpp ->
  dict_get metric results = Some stored ->
  (similarity_metric metric ->
   forall values, number_series stored values ->
   exists s,
     result (parse_json_file fs json_loads filepath metric) = Return s /\
     ys s = PNdarray (map to_db values)) /\
  (~ similarity_metric metric ->
   exists s,
     result (parse_json_file fs json_loads filepath metric) = Return s /\
     ys s = stored).
Proof.
  intros Hdec Hwf Hmetric. unfold similarity_metric. split.
  - intros -> values Hser. eexists. split.
    + rewrite (parse_msssim _ _ _ _ _ _ _ _ Hdec Hwf Hmetric Hser).
      reflexivity.
    + reflexivity.
  - intros Hne. eexists. split.
    + rewrite (parse_plain _ _ _ _ _ _ _ _ Hdec Hwf Hmetric Hne).
      reflexivity.
    + reflexivity.
Qed.

(** C2, as amended: every series returned by [parse_json_file] comes from
    a document whose [results] mapping holds the requested metric; [xs]
    is the stored [bpp] entry and [ys] has the length of the stored
    metric entry, so [xs] and [ys] are equal-length exactly when the two
    sequences in the file are. *)
Theorem returned_series_follows_file filepath metric s :
  result (parse_json_file fs json_loads filepath metric) = Return s ->
  exists doc results bpp stored,
    decodes_to fs json_loads filepath doc /\
    well_formed doc results bpp /\
    dict_get metric results = Some stored /\
    xs s = bpp /\
    py_len (ys s) = py_len stored /\
    (equal_length (xs s) (ys s) <-> equal_length bpp stored).
Proof.
  intros H. apply parse_returns in H.
  destruct H as (doc & results & bpp & stored & Hdec & Hwf & Hmetric & _
                 & Hxs & Hys).
  exists doc, results, bpp, stored.
  assert (Hlen : py_len (ys s) = py_len stored).
  { destruct Hys as [[_ ->] | [_ (values & (items & -> & Hnum) & ->)]]; auto.
    cbn. now rewrite length_map, (as_numbers_length _ _ Hnum). }
  repeat split; auto; unfold equal_length; rewrite Hxs, Hlen; auto.
Qed.

(** C4: a decoded file whose [results] mapping holds [bpp] but not the
    requested metric makes [parse_json_file] raise a [ValueError] whose
    message lists, in order, the keys of the file's [results] mapping,
    which are exactly the metrics present. *)
Theorem missing_metric_lists_available filepath metric doc results bpp :
  decodes_to fs json_loads filepath doc ->
  well_formed doc results bpp ->
  dict_get metric results = None ->
  result (parse_json_file fs json_loads filepath metric) =
    Raise (ValueError ("Error: metric " ++ PyStr.dq ++ metric ++ PyStr.dq
                         ++ " not available." ++ " Available metrics: "
                         ++ PyStr.join ", " (dict_keys results))) /\
  (forall k, In k (dict_keys results) <-> dict_get k results <> None).
Proof.
  intros Hdec Hwf Hmetric. split.
  - now rewrite (parse_missing_metric _ _ _ _ _ _ _ Hdec Hwf Hmetric).
  - intros k. apply dict_keys_get.
Qed.

(** C5: a decoded file without a [results] key, or whose [results]
    mapping has no [bpp] key, makes [parse_json_file] raise a
    [ValueError]; no series is returned. *)
Theorem missing_results_or_bpp_is_invalid filepath metric entries :
  decodes_to fs json_loads filepath (PDict entries) ->
  dict_get "results" entries = None \/
  (exists results,
      dict_get "results" entries = Some (PDict results) /\
      dict_get "bpp" results = None) ->
  result (parse_json_file fs json_loads filepath metric) =
    Raise (ValueError ("Invalid file " ++ PyStr.dq
                         ++ Path.str (Path.of_string filepath) ++ PyStr.dq)).
Proof.
  intros Hdec H.
  now rewrite (parse_invalid _ _ _ metric _ Hdec H).
Qed.

(** C10: for a well-formed result file, asking for the metric [bpp]
    itself succeeds, and both [xs] and [ys] are the file's [bpp]
    sequence. *)
Theorem bpp_against_itself filepath doc results bpp :
  decodes_to fs json_loads filepath doc ->
  well_formed doc results bpp ->
  exists s, result (parse_json_file fs json_loads filepath "bpp") = Return s /\
            xs s = bpp /\ ys s = bpp /\ ys s = xs s.
Proof.
  intros Hdec Hwf.
  assert (Hbpp : dict_get "bpp" results = Some bpp)
    by (destruct Hwf as (? & _ & _ & H); exact H).
  eexists. split.
  - rewrite (parse_plain _ _ _ _ _ _ _ _ Hdec Hwf Hbpp) by discriminate.
    reflexivity.
  - auto.
Qed.

End ParserClaims.

(** ** File names *)

Section NameFacts.

Lemma split_dotless_prefix base rest :
  dotless base = true ->
  PyStr.split "." (base ++ String "." rest) = base :: PyStr.split "." rest.
Proof.
  induction base as [|c base IH]; cbn; intros H.
  - destruct (PyStr.split "." rest) eqn:E; [|reflexivity].
    destruct rest; cbn in E; [discriminate|].
    destruct (PyStr.split "." rest); [discriminate|].
    destruct (Ascii.eqb a "."); discriminate.
  - apply andb_prop in H. destruct H as [Hc Hbase].
    rewrite (IH Hbase). apply negb_true_iff in Hc. now rewrite Hc.
Qed.

Lemma rfind_dotless s : dotless s = true -> PyStr.rfind "." s = None.
Proof.
  induction s as [|c s IH]; cbn; intros H; [reflexivity|].
  apply andb_prop in H. destruct H as [Hc Hs].
  rewrite (IH Hs). apply negb_true_iff in Hc. now rewrite Hc.
Qed.

Lemma rfind_last_dot base ext :
  dotless ext = true ->
  PyStr.rfind "." (base ++ String "." ext) = Some (String.length base).
Proof.
  intros H. induction base as [|c base IH]; cbn.
  - now rewrite (rfind_dotless _ H).
  - now rewrite IH.
Qed.

Lemma substring_prefix base rest :
  String.substring 0 (String.length base) (base ++ rest) = base.
Proof.
  induction base as [|c base IH]; cbn.
  - destruct rest; reflexivity.
  - now rewrite IH.
Qed.

Lemma length_append (a b : string) :
  String.length (a ++ b) = (String.length a + String.length b)%nat.
Proof. induction a as [|c a IH]; cbn; [|rewrite IH]; reflexivity. Qed.

(** For a file name with a single extension, the text before the first
    dot is the stem. *)
Lemma first_piece_is_stem filepath :
  single_extension (Path.name (Path.of_string filepath)) ->
  name_before_first_dot filepath = Path.stem (Path.of_string filepath).
Proof.
  intros (base & ext & Hname & Hbase & Hext & Hb & He).
  unfold name_before_first_dot, Path.stem. rewrite Hname.
  change (base ++ "." ++ ext) with (base ++ String "." ext).
  rewrite split_dotless_prefix, rfind_last_dot by assumption. cbn [hd].
  rewrite length_append. cbn [String.length].
  destruct base as [|c base]; [congruence|].
  destruct ext as [|c' ext]; [congruence|].
  cbn [String.length].
  replace (0 <? S (String.length base))%nat with true
    by (symmetry; apply Nat.ltb_lt; lia).
  replace (S (String.length base) <?
           S (String.length base) + S (S (String.length ext)) - 1)%nat
    with true by (symmetry; apply Nat.ltb_lt; lia).
  cbn [andb].
  change (S (String.length base)) with (String.length (String c base)).
  now rewrite substring_prefix.
Qed.

End NameFacts.

Section NameClaim.

Context {num : Type} {arith : Arith num}.

Variable fs : string -> option string.
Variable json_loads : string -> decode_error + pyobj num.

(** C7, as amended: the name of every series returned by
    [parse_json_file] is the document's [name] field when the document
    has one, and otherwise the file's name up to its first dot; for a
    file name with a single extension that is the file's stem. *)
Theorem series_name_from_document_or_file filepath metric s :
  result (parse_json_file fs json_loads filepath metric) = Return s ->
  exists doc,
    decodes_to fs json_loads filepath doc /\
    (forall v, name_field doc = Some v -> name s = v) /\
    (name_field doc = None ->
     name s = PStr (name_before_first_dot filepath)) /\
    (name_field doc = None ->
     single_extension (Path.name (Path.of_string filepath)) ->
     name s = PStr (Path.stem (Path.of_string filepath))).
Proof.
  intros H. apply parse_returns in H.
  destruct H as (doc & results & bpp & stored & Hdec & _ & _ & Hname & _).
  exists doc. unfold series_name in Hname. repeat split; auto.
  - intros v Hv. now rewrite Hv in Hname.
  - intros Hnone. now rewrite Hnone in Hname.
  - intros Hnone Hsingle. rewrite Hnone in Hname.
    now rewrite <- (first_piece_is_stem _ Hsingle).
Qed.

End NameClaim.

(** ** Decibels in exact arithmetic *)

Section Decibels.

Local Open Scope R_scope.

Lemma ln_10_pos : 0 < ln 10.
Proof. rewrite <- ln_1. apply ln_increasing; lra. Qed.

Lemma Rlog10_tenth : Rlog10 (1 - 0.9) = -1.
Proof.
  unfold Rlog10. replace (1 - 0.9) with (/ 10) by lra.
  rewrite ln_Rinv by lra. pose proof ln_10_pos. field. lra.
Qed.

Lemma to_db_nine_tenths : to_db 0.9 = 10.
Proof.
  unfold to_db. cbn [num_mul num_of_int num_log10 num_sub RArith].
  rewrite Rlog10_tenth. lra.
Qed.

Variable fs : string -> option string.
Variable json_loads : string -> decode_error + pyobj R.

(** C3: for the metric [msssim] the series [ys] holds
    [-10 * log10(1 - v)] for each stored value [v]; a stored [0.9] comes
    out as [10]. *)
Theorem msssim_in_decibels filepath doc results bpp stored values :
  decodes_to fs json_loads filepath doc ->
  well_formed doc results bpp ->
  dict_get "msssim" results = Some stored ->
  number_series stored values ->
  exists s,
    result (parse_json_file fs json_loads filepath "msssim") = Return s /\
    ys s = PNdarray (map (fun v => -10 * Rlog10 (1 - v)) values) /\
    (values = [0.9] -> ys s = PNdarray [10]).
Proof.
  intros Hdec Hwf Hmetric Hser. eexists. split; [|split].
  - rewrite (parse_msssim _ _ _ _ _ _ _ _ Hdec Hwf Hmetric Hser). reflexivity.
  - reflexivity.
  - intros ->. cbn [ys map]. now rewrite to_db_nine_tenths.
Qed.

End Decibels.

(** ** The interactive renderer *)

Section PlotlyClaim.

Context {num : Type}.

(** C9: with [plotly] installed and four axis limits, [plotly_plt] writes
    one chart, without opening it, to the given output file when that is
    a non-empty name, and to [plot.html] when it is empty or [None]; and
    whatever the circumstances, it writes a chart nowhere else. *)
Theorem plotly_plt_output_file
  (scatters : list (series num)) title ylabel output_file :
  (forall xmin xmax ymin ymax more,
      exists fig,
        plotly_plt true scatters title ylabel output_file
          (Some (xmin :: xmax :: ymin :: ymax :: more)) =
          ([PlotlyPlot fig false (filename_or_default output_file)],
           Return tt)) /\
  (forall installed limits ev,
      In ev (trace (plotly_plt installed scatters title ylabel output_file
                      limits)) ->
      exists fig,
        ev = PlotlyPlot fig false (filename_or_default output_file)) /\
  (forall file, output_file = Some file -> file <> "" ->
                filename_or_default output_file = file) /\
  (output_file = None \/ output_file = Some "" ->
   filename_or_default output_file = "plot.html").
Proof.
  repeat split.
  - intros. destruct scatters; eexists; reflexivity.
  - intros installed limits ev.
    destruct installed, scatters, limits as [[|? [|? [|? [|? ?]]]]|]; cbn;
      intros H; try contradiction;
      destruct H as [<- | []]; eexists; reflexivity.
  - intros file -> Hfile. destruct file; [congruence | reflexivity].
  - intros [-> | ->]; reflexivity.
Qed.

End PlotlyClaim.

(** ** The monad *)

Section MonadFacts.

Context {num : Type}.

Lemma bind_raises {A B : Type} (m : M num A) (k : A -> M num B) e :
  result m = Raise e -> bind m k = (trace m, Raise e).
Proof. destruct m as [t [a|e']]; cbn; intros [= ->]; reflexivity. Qed.

Lemma bind_returns {A B : Type} (m : M num A) (k : A -> M num B) a :
  result m = Return a ->
  bind m k = ((trace m ++ trace (k a))%list, result (k a)).
Proof.
  destruct m as [t [a'|e]]; cbn; intros [= ->]. now destruct (k a).
Qed.

Lemma bind_ret {A B : Type} (a : A) (k : A -> M num B) :
  bind (ret a) k = k a.
Proof. unfold bind, ret. now destruct (k a). Qed.

Lemma bind_lift_return {A B : Type} (a : A) (k : A -> M num B) :
  bind (lift (Return a)) k = k a.
Proof. unfold bind, lift. now destruct (k a). Qed.

(** A loop stops at the first item that raises. *)
Lemma for_each_raises {A B : Type} (f : A -> M num B) before x after e :
  (forall y, In y before -> exists v, result (f y) = Return v) ->
  result (f x) = Raise e ->
  result (for_each f (before ++ x :: after)) = Raise e.
Proof.
  intros Hbefore Hx. induction before as [|y before IH]; cbn [app for_each].
  - now rewrite (bind_raises _ _ _ Hx).
  - destruct (Hbefore y (or_introl eq_refl)) as [v Hv].
    rewrite (bind_returns _ _ _ Hv). cbn [result snd].
    rewrite (bind_raises _ _ e); [reflexivity|].
    apply IH. intros z Hz. apply Hbefore. now right.
Qed.

End MonadFacts.

(** ** The argument parser *)

Section ArgparseFacts.

Import Argparse.

Variable py_int : string -> option Z.
Variable p : parser.

Lemma lookup_option_in s a : lookup_option p s = Some a -> In a p.
Proof.
  unfold lookup_option.
  destruct (find _ _) as [[f a']|] eqn:E; intros [= <-].
  apply find_some in E. destruct E as [E _].
  unfold option_string_actions in E. apply in_flat_map in E.
  destruct E as (a0 & Ha0 & E). apply in_map_iff in E.
  destruct E as (f0 & [= _ ->] & _). exact Ha0.
Qed.

Lemma get_option_tuples_in tok a o e :
  In (a, o, e) (get_option_tuples p tok) -> In a p.
Proof.
  assert (Hin : forall fa, In fa (option_string_actions p) -> In (snd fa) p).
  { intros fa E. unfold option_string_actions in E. apply in_flat_map in E.
    destruct E as (a0 & Ha0 & E). apply in_map_iff in E.
    destruct E as (f0 & <- & _). exact Ha0. }
  unfold get_option_tuples.
  destruct (second_is_dash tok).
  - destruct (match cut "=" tok with Some _ => _ | None => _ end) as [pre ex].
    intros H. apply in_flat_map in H. destruct H as (fa & Hfa & H).
    destruct (PyStr.startswith pre (fst fa)); cbn in H; [|contradiction].
    destruct H as [[= <- _ _]|[]]. auto.
  - intros H. apply in_flat_map in H. destruct H as (fa & Hfa & H).
    destruct (fst fa =? _); [|destruct (PyStr.startswith tok (fst fa))];
      cbn in H; try contradiction;
      destruct H as [[= <- _ _]|[]]; auto.
Qed.

(** A token is only ever classified as an option of the parser. *)
Lemma parse_optional_in tok a o e :
  parse_optional p tok = Optional a o e -> In a p.
Proof.
  unfold parse_optional.
  destruct (negb (first_is_dash tok)); [discriminate|].
  destruct (lookup_option p tok) as [a0|] eqn:E0.
  { intros [= <- _ _]. eapply lookup_option_in; eauto. }
  destruct (String.length tok =? 1)%nat; [discriminate|].
  destruct (cut "=" tok) as [[os ex]|].
  - destruct (lookup_option p os) as [a1|] eqn:E1.
    + intros [= <- _ _]. eapply lookup_option_in; eauto.
    + destruct (get_option_tuples p tok) as [|[[a2 o2] e2] [|? ?]] eqn:E2.
      * destruct (negative_number tok); [discriminate|].
        destruct (PyStr.contains " " tok); discriminate.
      * intros [= <- _ _]. eapply (get_option_tuples_in tok a2 o2 e2).
        rewrite E2. now left.
      * discriminate.
  - destruct (get_option_tuples p tok) as [|[[a2 o2] e2] [|? ?]] eqn:E2.
    + destruct (negative_number tok); [discriminate|].
      destruct (PyStr.contains " " tok); discriminate.
    + intros [= <- _ _]. eapply (get_option_tuples_in tok a2 o2 e2).
      rewrite E2. now left.
    + discriminate.
Qed.

Lemma consume_explicit_in explicit :
  forall a o run tuples leftover,
    In a p ->
    consume_explicit p a o explicit run = inr (tuples, leftover) ->
    forall a' args o', In (a', args, o') tuples -> In a' p.
Proof.
  induction explicit as [|c rest IH]; intros a o run tuples leftover Ha;
    cbn [consume_explicit]; destruct (match_explicit a o) as [err|n];
    try discriminate.
  - destruct (n =? 1)%nat; [|discriminate].
    intros [= <- _] a' args o' [[= <- _ _]|[]]. exact Ha.
  - destruct ((n =? 0)%nat && negb (second_is_dash o)).
    + destruct (lookup_option p (String "-" (String c ""))) as [a1|] eqn:E1;
        [|discriminate].
      apply lookup_option_in in E1.
      destruct rest as [|c' rest'].
      * destruct (match_following a1 run) as [err|[args1 left1]];
          [discriminate|].
        intros [= <- _] a' args o' [[= <- _ _]|[[= <- _ _]|[]]]; assumption.
      * destruct (consume_explicit p a1 _ (String c' rest') run)
          as [err|[tuples1 left1]] eqn:E; [discriminate|].
        intros [= <- _] a' args o' [[= <- _ _]|H]; [assumption|].
        eapply (IH a1); eauto.
    + destruct (n =? 1)%nat; [|discriminate].
      intros [= <- _] a' args o' [[= <- _ _]|[]]. exact Ha.
Qed.

Lemma group_tokens_in classified g :
  In g (snd (group_tokens classified)) ->
  In (fst (fst g), snd (fst g)) classified.
Proof.
  induction classified as [|[tok cls] classified IH];
    cbn [group_tokens fold_right]; [cbn; tauto|].
  fold (group_tokens classified).
  destruct (group_tokens classified) as [run groups]. cbn [fst snd] in *.
  destruct cls; cbn [snd In]; intros H.
  - right. exact (IH H).
  - destruct H as [<- | H]; [now left | right; exact (IH H)].
  - destruct H as [<- | H]; [now left | right; exact (IH H)].
  - destruct H as [<- | H]; [now left | right; exact (IH H)].
Qed.

(** Every action the parser takes belongs to one of its arguments. *)
Lemma consumed_actions_in argv g tuples leftover a args o :
  In g (snd (scan p argv)) ->
  consume_group p g = inr (tuples, leftover) ->
  In (a, args, o) tuples ->
  In a p.
Proof.
  intros Hg Hconsume Hin. unfold scan in Hg.
  apply group_tokens_in in Hg. apply in_map_iff in Hg.
  destruct Hg as (tok & Heq & _).
  destruct g as [[tok' cls] run]. cbn in Heq. injection Heq as <- Hcls.
  cbn in Hconsume. destruct cls as [|a0 o0 e0| |];
    try (injection Hconsume as <- _; contradiction).
  apply parse_optional_in in Hcls.
  unfold consume_optional in Hconsume. destruct e0 as [ex|].
  - eapply consume_explicit_in; eauto.
  - destruct (match_following a0 run) as [err|[args0 left0]];
      [discriminate|].
    injection Hconsume as <- _. destruct Hin as [[= <- _ _]|[]]. exact Hcls.
Qed.

(** *** Stopping *)





(** *** Choices *)


Lemma get_value_each_str a args :
  type a = TStr -> get_value_each py_int a args = inr (map VStr args).
Proof.
  intros Ht. induction args as [|x args IH]; cbn; [reflexivity|].
  unfold get_value. rewrite Ht. fold (get_value py_int a).
  now rewrite IH.
Qed.



End ArgparseFacts.

(** ** The command line *)

Section MainClaims.

Context {num : Type} {arith : Arith num}.

Variable fs : string -> option string.
Variable json_loads : string -> decode_error + pyobj num.
Variable plotly_installed : bool.
Variable py_int : string -> option Z.

Import Argparse.



Lemma iter_strings_list (items : list string) :
  iter_strings (VList (map VStr items)) = Return items.
Proof.
  cbn. induction items as [|x items IH]; cbn; [|rewrite IH]; reflexivity.
Qed.


(** C6: a file whose content the decoder rejects makes [parse_json_file]
    print a line that names the file and then raise the decoder's own
    error; in [main] that error ends the run, whatever files follow, and
    nothing is drawn. *)
Theorem decode_failure_reported_and_raised filepath metric err :
  fails_to_decode fs json_loads filepath err ->
  parse_json_file fs json_loads filepath metric =
    ([Opened (Path.str (Path.of_string filepath));
      Printed ("Error reading file " ++ PyStr.dq
                 ++ Path.str (Path.of_string filepath) ++ PyStr.dq)],
     Raise (JSONDecodeError err)) /\
  (forall argv ns before after,
      parse_args py_int (setup_args plotly_installed) argv = Parsed ns ->
      getattr ns "results_file"
        = Some (VList (map VStr (before ++ filepath :: after))) ->
      getattr ns "metric" = Some (VStr metric) ->
      (forall f, In f before ->
                 exists s,
                   result (parse_json_file fs json_loads f metric)
                     = Return s) ->
      result (main fs json_loads plotly_installed py_int argv)
        = Raise (JSONDecodeError err) /\
      draws_nothing (main fs json_loads plotly_installed py_int argv)).
Proof.
  intros Hfail.
  assert (Hparse := parse_undecodable fs json_loads filepath metric err Hfail).
  split; [exact Hparse|].
  intros argv ns before after Hns Hfiles Hmetric Hbefore.
  assert (Hloop : forall files,
             for_each
               (fun f =>
                  bind (lift (Return (VStr metric)))
                    (fun m => bind (lift (as_string m))
                                (fun m => parse_json_file fs json_loads f m)))
               files
             = for_each (fun f => parse_json_file fs json_loads f metric)
                 files).
  { induction files as [|f files IH]; cbn [for_each]; [reflexivity|].
    rewrite IH, bind_lift_return. cbn [as_string].
    now rewrite bind_lift_return. }
  assert (Hraise :
            result (for_each (fun f => parse_json_file fs json_loads f metric)
                      (before ++ filepath :: after))
            = Raise (JSONDecodeError err)).
  { apply for_each_raises; [exact Hbefore|].
    now rewrite Hparse. }
  unfold main, parse_args_or_exit. rewrite Hns.
  rewrite bind_ret. unfold attribute. rewrite Hfiles, Hmetric.
  rewrite bind_lift_return, iter_strings_list, bind_lift_return, Hloop.
  rewrite (bind_raises _ _ _ Hraise). split; [reflexivity|].
  apply quiet_for_each. intros f. apply parse_draws_nothing.
Qed.

End MainClaims.

(** ** The example world, run *)

Section Runs.

Import Example.
Local Open Scope R_scope.

Lemma hyperprior_decodes :
  decodes_to fs json_loads "results/hyperprior.json" hyperprior_doc.
Proof. exists hyperprior_text. split; reflexivity. Qed.

Lemma hyperprior_well_formed :
  well_formed hyperprior_doc
    [("bpp", PList [PNum 0.1; PNum 0.2]);
     ("psnr", PList [PNum 30; PNum 31]);
     ("msssim", PList [PNum 0.9; PNum 0.99])]
    (PList [PNum 0.1; PNum 0.2]).
Proof. eexists. repeat split; reflexivity. Qed.

Lemma short_decodes :
  decodes_to fs json_loads "results/model.v2.json" short_doc.
Proof. exists short_text. split; reflexivity. Qed.

Lemma short_well_formed :
  well_formed short_doc
    [("bpp", PList [PNum 0.1; PNum 0.2]); ("psnr", PList [PNum 30])]
    (PList [PNum 0.1; PNum 0.2]).
Proof. eexists. repeat split; reflexivity. Qed.

Lemma msssim_decodes : decodes_to fs json_loads "msssim.json" msssim_doc.
Proof. exists msssim_text. split; reflexivity. Qed.

Lemma msssim_well_formed :
  well_formed msssim_doc
    [("bpp", PList [PNum 0.5]); ("msssim", PList [PNum 0.9])]
    (PList [PNum 0.5]).
Proof. eexists. repeat split; reflexivity. Qed.

Lemma broken_fails : fails_to_decode fs json_loads "broken.json" broken_error.
Proof. exists broken_text. split; reflexivity. Qed.

(** The first testable property of the specification: [bpp] and [psnr]
    come back as stored. *)
Example hyperprior_psnr :
  parse "results/hyperprior.json" "psnr" =
    ([Opened "results/hyperprior.json"],
     Return {| name := PStr "hyperprior";
               xs := PList [PNum 0.1; PNum 0.2];
               ys := PList [PNum 30; PNum 31] |}).
Proof. reflexivity. Qed.

(** The path is normalised before it is opened or printed. *)
Example dotted_path_is_normalised :
  trace (parse "./results//hyperprior.json" "psnr")
    = [Opened "results/hyperprior.json"].
Proof. reflexivity. Qed.

(** [--backend=gnuplot] and the abbreviation [--back gnuplot] are refused
    like [--backend gnuplot]; after [--] nothing is an option. *)
Example backend_spellings :
  map (fun argv => result (run ("-f" :: "results/hyperprior.json" :: argv)))
    [["--backend=gnuplot"]; ["--back"; "gnuplot"]; ["--"; "--backend"]]
  = [Raise (SystemExit 2); Raise (SystemExit 2); Raise (SystemExit 2)].
Proof. reflexivity. Qed.

(** A whole run: one file, the interactive backend, an output name. *)
Example plotly_run :
  map (fun ev => negb (is_opened ev) && negb (is_plot ev))
    (trace (run ["-f"; "msssim.json"; "-m"; "msssim"; "--backend"; "plotly";
                 "-o"; "rd.html"]))
  = [false; false] /\
  result (run ["-f"; "msssim.json"; "-m"; "msssim"; "--backend"; "plotly";
               "-o"; "rd.html"]) = Return tt.
Proof. split; reflexivity. Qed.

(** The series read from [results/model.v2.json] for [psnr]. *)
Lemma short_parse :
  result (parse "results/model.v2.json" "psnr") =
    Return {| name := PStr "model";
              xs := PList [PNum 0.1; PNum 0.2];
              ys := PList [PNum 30] |}.
Proof. reflexivity. Qed.

End Runs.

(** C1 at [results/hyperprior.json]: [msssim] is converted, [psnr] is
    not. *)
Lemma transforms_similarity_only_witness :
  (exists s,
      result (Example.parse "results/hyperprior.json" "msssim") = Return s /\
      ys s = PNdarray (map to_db [0.9; 0.99]%R)) /\
  (exists s,
      result (Example.parse "results/hyperprior.json" "psnr") = Return s /\
      ys s = PList [PNum 30%R; PNum 31%R]).
Proof.
  split.
  - apply (parse_json_file_transforms_similarity_only
             Example.fs Example.json_loads _ "msssim" _ _ _
             (PList [PNum 0.9%R; PNum 0.99%R])
             hyperprior_decodes hyperprior_well_formed eq_refl);
      [reflexivity | eexists; split; reflexivity].
  - apply (parse_json_file_transforms_similarity_only
             Example.fs Example.json_loads _ "psnr" _ _ _
             (PList [PNum 30%R; PNum 31%R])
             hyperprior_decodes hyperprior_well_formed eq_refl).
    unfold similarity_metric. discriminate.
Defined.

(** C2 as stated fails: [results/model.v2.json] holds two [bpp] values
    and one [psnr] value, and the series comes back with [xs] of length 2
    and [ys] of length 1. *)
Lemma unequal_lengths_returned :
  let s := {| name := PStr "model";
              xs := PList [PNum 0.1%R; PNum 0.2%R];
              ys := PList [PNum 30%R] |} in
  result (Example.parse "results/model.v2.json" "psnr") = Return s /\
  ~ equal_length (xs s) (ys s).
Proof.
  split; [reflexivity|].
  intros (n & Hx & Hy). cbn in Hx, Hy. congruence.
Qed.

(** C2 as amended, at the same file. *)
Lemma returned_series_follows_file_witness :
  exists doc results bpp stored,
    decodes_to Example.fs Example.json_loads "results/model.v2.json" doc /\
    well_formed doc results bpp /\
    dict_get "psnr" results = Some stored /\
    PList [PNum 0.1%R; PNum 0.2%R] = bpp /\
    py_len (PList [PNum 30%R]) = py_len stored /\
    (equal_length (PList [PNum 0.1%R; PNum 0.2%R]) (PList [PNum 30%R])
     <-> equal_length bpp stored).
Proof.
  exact (returned_series_follows_file Example.fs Example.json_loads
           "results/model.v2.json" "psnr" _ short_parse).
Defined.

(** C3 at [msssim.json], whose single score is [0.9]. *)
Lemma msssim_in_decibels_witness :
  exists s,
    result (Example.parse "msssim.json" "msssim") = Return s /\
    ys s = PNdarray [10%R].
Proof.
  destruct (msssim_in_decibels Example.fs Example.json_loads
              "msssim.json" _ _ _ (PList [PNum 0.9%R]) [0.9%R]
              msssim_decodes msssim_well_formed eq_refl)
    as (s & Hs & _ & Hten).
  - eexists. split; reflexivity.
  - exists s. split; [exact Hs | exact (Hten eq_refl)].
Defined.

(** C4 at [results/hyperprior.json], asked for [ssim]. *)
Lemma missing_metric_lists_available_witness :
  result (Example.parse "results/hyperprior.json" "ssim") =
    Raise (ValueError ("Error: metric " ++ PyStr.dq ++ "ssim" ++ PyStr.dq
                         ++ " not available."
                         ++ " Available metrics: bpp, psnr, msssim")).
Proof.
  exact (proj1 (missing_metric_lists_available
                  Example.fs Example.json_loads _ "ssim" _ _ _
                  hyperprior_decodes hyperprior_well_formed eq_refl)).
Defined.

(** C5 at a file without [bpp] and at a file without [results]. *)
Lemma missing_results_or_bpp_is_invalid_witness :
  result (Example.parse "no-bpp.json" "psnr") =
    Raise (ValueError ("Invalid file " ++ PyStr.dq ++ "no-bpp.json"
                         ++ PyStr.dq)) /\
  result (Example.parse "no-results.json" "psnr") =
    Raise (ValueError ("Invalid file " ++ PyStr.dq ++ "no-results.json"
                         ++ PyStr.dq)).
Proof.
  split.
  - apply (missing_results_or_bpp_is_invalid
             Example.fs Example.json_loads "no-bpp.json" "psnr"
             [("results", PDict [("psnr", PList [PNum 30%R])])]).
    + exists Example.no_bpp_text. split; reflexivity.
    + right. eexists. split; reflexivity.
  - apply (missing_results_or_bpp_is_invalid
             Example.fs Example.json_loads "no-results.json" "psnr"
             [("name", PStr "empty")]).
    + exists Example.no_results_text. split; reflexivity.
    + left. reflexivity.
Defined.

(** C6 at [broken.json], read after a good file. *)
Lemma decode_failure_reported_and_raised_witness :
  Example.parse "broken.json" "psnr" =
    ([Opened "broken.json";
      Printed ("Error reading file " ++ PyStr.dq ++ "broken.json"
                 ++ PyStr.dq)],
     Raise (JSONDecodeError Example.broken_error)) /\
  result (Example.run ["-f"; "results/hyperprior.json"; "broken.json";
                       "results/model.v2.json"])
    = Raise (JSONDecodeError Example.broken_error) /\
  draws_nothing (Example.run ["-f"; "results/hyperprior.json"; "broken.json";
                              "results/model.v2.json"]).
Proof.
  destruct (decode_failure_reported_and_raised
              Example.fs Example.json_loads true Example.py_int
              "broken.json" "psnr" Example.broken_error broken_fails)
    as [Hparse Hmain].
  split; [exact Hparse|].
  eapply (Hmain _ _ ["results/hyperprior.json"] ["results/model.v2.json"]).
  - reflexivity.
  - reflexivity.
  - reflexivity.
  - intros f [<- | []]. eexists. reflexivity.
Defined.

(** C7 as stated fails: [results/model.v2.json] has no [name] field and
    its series is called [model], while the stem of the file is
    [model.v2]. *)
Lemma name_is_not_the_stem :
  let s := {| name := PStr "model";
              xs := PList [PNum 0.1%R; PNum 0.2%R];
              ys := PList [PNum 30%R] |} in
  result (Example.parse "results/model.v2.json" "psnr") = Return s /\
  name_field Example.short_doc = None /\
  Path.stem (Path.of_string "results/model.v2.json") = "model.v2" /\
  name s <> PStr (Path.stem (Path.of_string "results/model.v2.json")).
Proof.
  repeat split; try reflexivity. cbn. discriminate.
Qed.

(** C7 as amended, at the same file and at one that has a name. *)
Lemma series_name_from_document_or_file_witness :
  exists doc,
    decodes_to Example.fs Example.json_loads "results/model.v2.json" doc /\
    (forall v, name_field doc = Some v -> @PStr R "model" = v) /\
    (name_field doc = None ->
     @PStr R "model" = PStr (name_before_first_dot "results/model.v2.json")) /\
    (name_field doc = None ->
     single_extension (Path.name (Path.of_string "results/model.v2.json")) ->
     @PStr R "model"
       = PStr (Path.stem (Path.of_string "results/model.v2.json"))).
Proof.
  exact (series_name_from_document_or_file Example.fs Example.json_loads
           "results/model.v2.json" "psnr" _ short_parse).
Defined.


(** C10 at [results/hyperprior.json]. *)
Lemma bpp_against_itself_witness :
  exists s,
    result (Example.parse "results/hyperprior.json" "bpp") = Return s /\
    xs s = PList [PNum 0.1%R; PNum 0.2%R] /\
    ys s = PList [PNum 0.1%R; PNum 0.2%R] /\
    ys s = xs s.
Proof.
  exact (bpp_against_itself Example.fs Example.json_loads _ _ _ _
           hyperprior_decodes hyperprior_well_formed).
Defined.

(** * Further properties of the parser *)

(** Unfolds the parser and the monad. *)
Ltac exec :=
  cbv beta delta
    [parse_json_file open_read load_or_report missing_results_or_bpp
     convert_to_db bind lift ret raise emit normalised];
  cbn beta iota zeta.

(** Rewrites with the equations at hand and computes. *)
Ltac settle :=
  repeat first
    [ progress cbn
    | rewrite dict_get_set_same
    | rewrite dict_get_set_other by discriminate
    | match goal with
      | H : _ (Path.str _) = _ |- _ => rewrite H
      | H : _ = inl _ |- _ => rewrite H
      | H : _ = inr _ |- _ => rewrite H
      | H : dict_get _ _ = Some _ |- _ =>
          first [rewrite (dict_mem_true _ _ _ H) | rewrite H]
      | H : dict_get _ _ = None |- _ =>
          first [rewrite (dict_mem_false _ _ H) | rewrite H]
      | H : as_numbers _ = _ |- _ => rewrite H
      | H : (_ =? _) = _ |- _ => rewrite H
      | H : existsb _ _ = _ |- _ => rewrite H
      | H : PyStr.contains _ _ = _ |- _ => rewrite H
      end ].

(** Splits on every test the parser still has to make. *)
Ltac branches :=
  repeat (match goal with
          | |- context [if ?b then _ else _] => destruct b eqn:?
          | |- context [match dict_get ?k ?d with _ => _ end] =>
              destruct (dict_get k d) eqn:?
          | |- context [match as_numbers ?l with _ => _ end] =>
              destruct (as_numbers l) eqn:?
          | |- context [py_contains _ ?o] => is_var o; destruct o
          | |- context [py_getitem ?o _] => is_var o; destruct o
          | |- context [np_to_db ?o] => is_var o; destruct o
          end; settle).

(** A key cannot be both present and absent. *)
Ltac absurd_mem :=
  exfalso;
  match goal with
  | H : negb (dict_mem ?k ?d) = false, H' : dict_get ?k ?d = None |- _ =>
      rewrite (dict_mem_false _ _ H') in H; discriminate
  | H : negb (dict_mem ?k ?d) = true, H' : dict_get ?k ?d = Some _ |- _ =>
      rewrite (dict_mem_true _ _ _ H') in H; discriminate
  end.

Section ParserEdges.

Context {num : Type} {arith : Arith num}.

Variable fs : string -> option string.
Variable json_loads : string -> decode_error + pyobj num.

(** How the parser ends for every file and every metric but [msssim]:
    with a series, or with one of five exceptions and no other; and for
    any metric at all it never raises [KeyError], every subscript with a
    key being preceded by a membership test. *)
Theorem parse_json_file_outcomes filepath metric :
  (metric <> "msssim" ->
   (exists s, result (parse_json_file fs json_loads filepath metric)
              = Return s) \/
   (exists e, result (parse_json_file fs json_loads filepath metric)
              = Raise e /\
              (e = OSError (normalised filepath) \/
               (exists err, e = JSONDecodeError err) \/
               (exists msg, e = ValueError msg) \/
               e = TypeError \/
               e = AttributeError "keys"))) /\
  (forall k, result (parse_json_file fs json_loads filepath metric)
             <> Raise (KeyError k)).
Proof.
  split.
  - intros Hne. apply String.eqb_neq in Hne. exec.
    destruct (fs (Path.str (Path.of_string filepath))) as [text|];
      [|cbn; eauto 10].
    cbn. destruct (json_loads text) as [err|doc]; [cbn; eauto 10|].
    settle. branches; try absurd_mem; eauto 10.
  - intros k.
    destruct (string_dec metric "msssim") as [->|Hne];
      [|apply String.eqb_neq in Hne]; exec;
    destruct (fs (Path.str (Path.of_string filepath))) as [text|];
      try (cbn; discriminate);
    cbn; (destruct (json_loads text) as [err|doc]; [cbn; discriminate|]);
    settle; branches; try discriminate; absurd_mem.
Qed.

(** For a metric other than [msssim] the parser returns a series exactly
    when the file is readable and decodes to a document whose [results]
    mapping holds both [bpp] and the metric; the series is then made of
    the document's name or the file's, the stored [bpp] entry and the
    stored metric entry. *)
Theorem parse_json_file_succeeds_iff filepath metric s :
  metric <> "msssim" ->
  result (parse_json_file fs json_loads filepath metric) = Return s <->
  exists doc results bpp stored,
    decodes_to fs json_loads filepath doc /\
    well_formed doc results bpp /\
    dict_get metric results = Some stored /\
    s = {| name := series_name filepath doc; xs := bpp; ys := stored |}.
Proof.
  intros Hne. split.
  - intros H. apply parse_returns in H.
    destruct H as (doc & results & bpp & stored & Hdec & Hwf & Hmetric
                   & Hname & Hxs & [[_ Hys] | [Heq _]]); [|contradiction].
    exists doc, results, bpp, stored. repeat split; auto.
    destruct s as [n x y]. cbn in *. congruence.
  - intros (doc & results & bpp & stored & Hdec & Hwf & Hmetric & ->).
    now rewrite (parse_plain _ _ _ _ _ _ _ _ Hdec Hwf Hmetric Hne).
Qed.

(** The parser opens exactly one file, the normalised path, before
    anything else; it prints one line exactly when that file is readable
    and the decoder rejects its content, and emits nothing more. *)
Theorem parse_json_file_trace filepath metric :
  let line := "Error reading file " ++ PyStr.dq ++ normalised filepath
              ++ PyStr.dq in
  (trace (parse_json_file fs json_loads filepath metric)
     = [Opened (normalised filepath)] \/
   trace (parse_json_file fs json_loads filepath metric)
     = [Opened (normalised filepath); Printed line]) /\
  (trace (parse_json_file fs json_loads filepath metric)
     = [Opened (normalised filepath); Printed line] <->
   exists err, fails_to_decode fs json_loads filepath err).
Proof.
  cbn zeta. unfold fails_to_decode. exec.
  destruct (fs (Path.str (Path.of_string filepath))) as [text|].
  2:{ cbn. split; [now left|]. split; [discriminate|].
      intros (err & text & [=] & _). }
  cbn. destruct (json_loads text) as [err|doc] eqn:Hload.
  { cbn. split; [now right|]. split; [eauto|reflexivity]. }
  assert (Hquiet : forall m : M num (series num),
             silent m ->
             (let (t', r) := m in
              (Opened (Path.str (Path.of_string filepath)) :: ([] ++ t'), r))
             = ([Opened (Path.str (Path.of_string filepath))], result m)).
  { intros [t r] Ht. unfold silent in Ht. cbn in *. now subst t. }
  cbn.
  match goal with
  | |- context [trace (let (t', r) := ?m in _)] =>
      assert (Hm : silent m)
  end.
  { unfold silent. settle. branches; reflexivity. }
  match goal with
  | |- context [trace (let (t', r) := ?m in _)] =>
      destruct m as [t r]
  end.
  unfold silent in Hm. cbn in Hm. subst t. cbn.
  split; [now left|]. split; [discriminate|].
  intros (err & text' & [= <-] & Hbad). congruence.
Qed.

(** [OSError] comes from opening the file and from nowhere else. *)
Theorem parse_json_file_unreadable filepath metric path :
  result (parse_json_file fs json_loads filepath metric)
    = Raise (OSError path) <->
  fs (normalised filepath) = None /\ path = normalised filepath.
Proof.
  exec. destruct (fs (Path.str (Path.of_string filepath))) as [text|].
  - split; [|intros [[=] _]].
    cbn. destruct (json_loads text) as [err|doc]; [cbn; discriminate|].
    destruct (string_dec metric "msssim") as [->|Hne];
      [|apply String.eqb_neq in Hne];
      settle; branches; try discriminate; absurd_mem.
  - cbn. split; [intros [= <-]; auto | intros [_ ->]; reflexivity].
Qed.

(** A document that is not a JSON object never gives a series: the
    parser raises [TypeError], or [ValueError] with the invalid-file
    message when the document is a list or a string in which [results]
    does not occur. *)
Theorem non_object_document_is_refused filepath metric doc :
  decodes_to fs json_loads filepath doc ->
  (forall entries, doc <> PDict entries) ->
  result (parse_json_file fs json_loads filepath metric) = Raise TypeError \/
  result (parse_json_file fs json_loads filepath metric)
    = Raise (ValueError ("Invalid file " ++ PyStr.dq ++ normalised filepath
                           ++ PyStr.dq)).
Proof.
  intros (text & Hopen & Hload) Hdoc. exec. settle.
  destruct doc as [| | | | |entries|];
    try (exfalso; exact (Hdoc entries eq_refl));
    settle; branches; auto.
Qed.

(** A [results] entry that is [null], a boolean or a number makes the
    membership test for [bpp] raise [TypeError], not the invalid-file
    error. *)
Theorem scalar_results_is_type_error filepath metric entries r :
  decodes_to fs json_loads filepath (PDict entries) ->
  dict_get "results" entries = Some r ->
  scalar r ->
  parse_json_file fs json_loads filepath metric
    = ([Opened (normalised filepath)], Raise TypeError).
Proof.
  intros (text & Hopen & Hload) Hres Hr. exec. settle.
  destruct r; try contradiction; reflexivity.
Qed.

(** Two series read from one file for two metrics have the same name and
    the same [xs]. *)
Theorem name_and_xs_do_not_depend_on_metric filepath metric metric' s s' :
  result (parse_json_file fs json_loads filepath metric) = Return s ->
  result (parse_json_file fs json_loads filepath metric') = Return s' ->
  name s = name s' /\ xs s = xs s'.
Proof.
  intros H H'. apply parse_returns in H, H'.
  destruct H as (doc & results & bpp & stored & (text & Ht & Hl)
                 & (entries & -> & Hres & Hbpp) & _ & Hname & Hxs & _).
  destruct H' as (doc' & results' & bpp' & stored' & (text' & Ht' & Hl')
                  & (entries' & -> & Hres' & Hbpp') & _ & Hname' & Hxs' & _).
  assert (text' = text) by congruence. subst text'.
  assert (entries' = entries) by congruence. subst entries'.
  assert (results' = results) by congruence. subst results'.
  split; congruence.
Qed.

End ParserEdges.

(** * Paths and names *)

Section PathFacts.

Lemma split_nonempty sep s : PyStr.split sep s <> [].
Proof.
  destruct s as [|c s]; cbn; [discriminate|].
  destruct (PyStr.split sep s); [discriminate|].
  destruct (Ascii.eqb c sep); discriminate.
Qed.

(** No piece of a split contains the separator. *)
Lemma split_pieces_lack sep s x :
  In x (PyStr.split sep s) -> lacks sep x = true.
Proof.
  revert x. induction s as [|c s IH]; cbn; intros x.
  - intros [<- | []]. reflexivity.
  - destruct (PyStr.split sep s) as [|piece pieces] eqn:E; cbn.
    + now destruct (split_nonempty sep s).
    + destruct (Ascii.eqb c sep) eqn:Ec; cbn.
      * intros [<- | H]; [reflexivity | auto].
      * intros [<- | H]; [|apply IH; now right].
        cbn. rewrite Ec. cbn. apply IH. now left.
Qed.

Lemma split_lacking sep s : lacks sep s = true -> PyStr.split sep s = [s].
Proof.
  induction s as [|c s IH]; cbn; [reflexivity|]. intros H.
  apply andb_prop in H. destruct H as [Hc Hs]. rewrite (IH Hs).
  apply negb_true_iff in Hc. now rewrite Hc.
Qed.

Lemma split_lacking_prefix sep x rest :
  lacks sep x = true ->
  PyStr.split sep (x ++ String sep rest) = x :: PyStr.split sep rest.
Proof.
  induction x as [|c x IH]; cbn; intros H.
  - rewrite Ascii.eqb_refl.
    destruct (PyStr.split sep rest) eqn:E; [|reflexivity].
    now destruct (split_nonempty sep rest).
  - apply andb_prop in H. destruct H as [Hc Hx]. rewrite (IH Hx).
    apply negb_true_iff in Hc. now rewrite Hc.
Qed.

(** Splitting what was joined gives the pieces back. *)
Lemma split_join sep x items :
  Forall (fun y => lacks sep y = true) (x :: items) ->
  PyStr.split sep (PyStr.join (String sep "") (x :: items)) = x :: items.
Proof.
  revert x. induction items as [|y items IH]; intros x H.
  - cbn. apply split_lacking. now inversion H.
  - inversion H as [|? ? Hx Hrest]; subst.
    change (PyStr.join (String sep "") (x :: y :: items))
      with (x ++ String sep (PyStr.join (String sep "") (y :: items))).
    rewrite (split_lacking_prefix _ _ _ Hx). now rewrite IH.
Qed.

Lemma prefix_hd_split sep s :
  String.prefix (hd "" (PyStr.split sep s)) s = true.
Proof.
  induction s as [|c s IH]; cbn; [reflexivity|].
  destruct (PyStr.split sep s) as [|piece pieces] eqn:E.
  - now destruct (split_nonempty sep s).
  - destruct (Ascii.eqb c sep); cbn; [reflexivity|].
    cbn in IH. destruct (ascii_dec c c); [exact IH | congruence].
Qed.

Lemma prefix_lacks c a b :
  String.prefix a b = true -> lacks c b = true -> lacks c a = true.
Proof.
  revert b. induction a as [|x a IH]; intros b; [reflexivity|].
  destruct b as [|y b]; cbn; [discriminate|].
  destruct (ascii_dec x y) as [->|]; [|discriminate].
  intros Hp H. apply andb_prop in H. destruct H as [Hy Hb].
  rewrite Hy. cbn. eauto.
Qed.

Lemma last_in {A : Type} (l : list A) (d : A) : l <> [] -> In (last l d) l.
Proof.
  induction l as [|x [|y l] IH]; [congruence | now left |].
  intros _. right. apply IH. discriminate.
Qed.

(** The components of a path are non-empty, are not a single dot and
    contain no slash. *)
Lemma parts_are_clean p x :
  In x (Path.parts (Path.of_string p)) ->
  Path.keep_part x = true /\ lacks "/" x = true.
Proof.
  unfold Path.of_string. destruct (Path.splitroot p) as [r rel]. cbn.
  intros H. apply filter_In in H. destruct H as [H Hkeep].
  split; [exact Hkeep|]. now apply split_pieces_lack in H.
Qed.

Lemma name_lacks_slash p : lacks "/" (Path.name (Path.of_string p)) = true.
Proof.
  unfold Path.name.
  destruct (Path.parts (Path.of_string p)) as [|x l] eqn:E; [reflexivity|].
  assert (H : In (last (x :: l) "") (Path.parts (Path.of_string p))).
  { rewrite E. apply last_in. discriminate. }
  now apply parts_are_clean in H.
Qed.

(** The name a series takes from its file contains neither a dot nor a
    slash, and the file name begins with it. *)
Theorem default_name_is_clean filepath :
  lacks "." (name_before_first_dot filepath) = true /\
  lacks "/" (name_before_first_dot filepath) = true /\
  String.prefix (name_before_first_dot filepath)
    (Path.name (Path.of_string filepath)) = true.
Proof.
  unfold name_before_first_dot.
  set (n := Path.name (Path.of_string filepath)).
  assert (Hp := prefix_hd_split "." n).
  repeat split; auto.
  - apply (split_pieces_lack "." n).
    destruct (PyStr.split "." n) eqn:E; [now destruct (split_nonempty "." n)|].
    now left.
  - apply (prefix_lacks _ _ n Hp). apply name_lacks_slash.
Qed.

(** *** Normalising twice *)

Lemma splitroot_roots p :
  fst (Path.splitroot p) = "" \/ fst (Path.splitroot p) = "/" \/
  fst (Path.splitroot p) = "//".
Proof.
  unfold Path.splitroot. destruct p as [|c p]; [now left|].
  destruct c as [[] [] [] [] [] [] [] []]; try (now left).
  destruct (_ =? 2)%nat; cbn; auto.
Qed.

Lemma splitroot_relative c rest :
  c <> "/"%char ->
  Path.splitroot (String c rest) = ("", String c rest).
Proof.
  intros H. unfold Path.splitroot.
  destruct c as [[] [] [] [] [] [] [] []]; try reflexivity. congruence.
Qed.

Lemma lacks_head c x rest :
  lacks c (String x rest) = true -> x <> c.
Proof.
  cbn. intros H. apply andb_prop in H. destruct H as [H _].
  apply negb_true_iff in H. intros ->. now rewrite Ascii.eqb_refl in H.
Qed.

Lemma lstrip_other c x rest :
  x <> c -> PyStr.lstrip c (String x rest) = String x rest.
Proof.
  intros H. cbn. destruct (Ascii.eqb x c) eqn:E; [|reflexivity].
  apply Ascii.eqb_eq in E. contradiction.
Qed.

(** What is joined from clean components starts with no slash. *)
Lemma join_clean_head x items :
  Path.keep_part x = true -> lacks "/" x = true ->
  exists c rest, PyStr.join "/" (x :: items) = String c rest /\ c <> "/"%char.
Proof.
  intros Hk Hl. destruct x as [|c x]; [discriminate|].
  exists c. apply lacks_head in Hl.
  destruct items; cbn; eauto.
Qed.

Lemma filter_keep_clean items :
  Forall (fun x => Path.keep_part x = true /\ lacks "/" x = true) items ->
  filter Path.keep_part items = items.
Proof.
  induction 1 as [|x items [Hk _] _ IH]; cbn; [reflexivity|].
  now rewrite Hk, IH.
Qed.

(** Reading a path back from its printed form gives the same path. *)
Theorem of_string_str p :
  Path.of_string (Path.str (Path.of_string p)) = Path.of_string p.
Proof.
  assert (Hclean : Forall (fun x => Path.keep_part x = true /\
                                    lacks "/" x = true)
                     (Path.parts (Path.of_string p))).
  { apply Forall_forall. intros x. apply parts_are_clean. }
  assert (Hroot := splitroot_roots p).
  unfold Path.of_string in *. destruct (Path.splitroot p) as [r rel].
  cbn [fst] in Hroot. cbn [Path.parts] in Hclean.
  set (ps := filter Path.keep_part (PyStr.split "/" rel)) in *.
  unfold Path.str. cbn [Path.root Path.parts].
  assert (Hsplit : forall x items,
             ps = x :: items ->
             filter Path.keep_part
               (PyStr.split "/" (PyStr.join "/" (x :: items))) = ps).
  { intros x items E. rewrite split_join.
    - rewrite <- E. now apply filter_keep_clean.
    - rewrite <- E. eapply Forall_impl; [|exact Hclean]. now intros ? [_ ?]. }
  destruct ps as [|x items] eqn:Eps.
  - destruct Hroot as [-> | [-> | ->]]; reflexivity.
  - inversion Hclean as [|? ? [Hk Hl] _]; subst.
    destruct (join_clean_head x items Hk Hl) as (c & rest & Hj & Hc).
    specialize (Hsplit x items eq_refl).
    destruct Hroot as [-> | [-> | ->]].
    + cbn [append]. rewrite Hj, (splitroot_relative _ _ Hc), <- Hj.
      now rewrite Hsplit.
    + change ("/" ++ PyStr.join "/" (x :: items))
        with (String "/" (PyStr.join "/" (x :: items))).
      unfold Path.splitroot. cbn [PyStr.lstrip]. rewrite Ascii.eqb_refl.
      rewrite Hj, (lstrip_other _ _ _ Hc), <- Hj.
      cbn [String.length]. rewrite Nat.sub_succ_l, Nat.sub_diag by lia.
      cbn [Nat.eqb]. now rewrite Hsplit.
    + change ("//" ++ PyStr.join "/" (x :: items))
        with (String "/" (String "/" (PyStr.join "/" (x :: items)))).
      unfold Path.splitroot. cbn [PyStr.lstrip]. rewrite !Ascii.eqb_refl.
      rewrite Hj, (lstrip_other _ _ _ Hc), <- Hj.
      cbn [String.length].
      replace (S (S (String.length (PyStr.join "/" (x :: items))))
               - String.length (PyStr.join "/" (x :: items)))%nat
        with 2%nat by lia.
      cbn [Nat.eqb]. now rewrite Hsplit.
Qed.

End PathFacts.

Section NormalisedParse.

Context {num : Type} {arith : Arith num}.

Variable fs : string -> option string.
Variable json_loads : string -> decode_error + pyobj num.

(** The parser does the same for a path and for its normalised form:
    the same file is opened, the same series or error comes back. *)
Theorem parse_json_file_normalised filepath metric :
  parse_json_file fs json_loads (normalised filepath) metric
  = parse_json_file fs json_loads filepath metric.
Proof.
  unfold parse_json_file, normalised. now rewrite of_string_str.
Qed.

End NormalisedParse.

(** * The renderers *)

Section RendererFacts.

Context {num : Type}.



End RendererFacts.

(** * The decibel scale *)

Section DecibelScale.

Local Open Scope R_scope.


End DecibelScale.

(** * The namespace of a parsed command line *)

Section NamespaceFacts.

Import Argparse.

Lemma getattr_setattr_same ns attr v :
  getattr (setattr ns attr v) attr = Some v.
Proof.
  induction ns as [|[k v'] ns IH]; cbn.
  - now rewrite String.eqb_refl.
  - destruct (k =? attr) eqn:E; cbn; rewrite E; auto.
Qed.

Lemma getattr_setattr_other ns attr attr' v :
  attr <> attr' -> getattr (setattr ns attr v) attr' = getattr ns attr'.
Proof.
  intros Hne. induction ns as [|[k v'] ns IH]; cbn.
  - apply String.eqb_neq in Hne. now rewrite Hne.
  - destruct (k =? attr) eqn:E; cbn.
    + apply String.eqb_eq in E. subst k.
      apply String.eqb_neq in Hne. now rewrite Hne.
    + now rewrite IH.
Qed.

Lemma getattr_is_setattr_same ns attr v (P : value -> Prop) :
  P v -> getattr_is (setattr ns attr v) attr P.
Proof. intros H. exists v. now rewrite getattr_setattr_same. Qed.

Lemma getattr_is_setattr_other ns attr attr' v (P : value -> Prop) :
  attr <> attr' -> getattr_is ns attr' P ->
  getattr_is (setattr ns attr v) attr' P.
Proof.
  intros Hne (w & Hw & HP). exists w.
  now rewrite getattr_setattr_other.
Qed.

(** *** Arity *)

Lemma match_following_arity a run args leftover o :
  match_following a run = inr (args, leftover) -> arity_ok (a, args, o).
Proof.
  unfold match_following, arity_ok.
  destruct (nargs a) as [| |n].
  - destruct run; [discriminate|]. now intros [= <- _].
  - auto.
  - destruct (n <=? List.length run)%nat eqn:E; [|discriminate].
    intros [= <- _]. apply Nat.leb_le in E. apply firstn_length_le, E.
Qed.

Lemma match_explicit_one a o explicit :
  match_explicit a o = inr 1%nat -> arity_ok (a, [explicit], o).
Proof.
  unfold match_explicit, arity_ok.
  destruct (nargs a) as [| |[|[|n]]]; try discriminate; auto.
Qed.

Lemma match_explicit_zero a o :
  match_explicit a o = inr 0%nat -> arity_ok (a, [], o).
Proof.
  unfold match_explicit, arity_ok.
  destruct (nargs a) as [| |[|[|n]]]; try discriminate; auto.
Qed.

Variable p : parser.

Lemma consume_explicit_arity explicit :
  forall a o run tuples leftover,
    consume_explicit p a o explicit run = inr (tuples, leftover) ->
    Forall arity_ok tuples.
Proof.
  induction explicit as [|c rest IH]; intros a o run tuples leftover;
    cbn [consume_explicit]; destruct (match_explicit a o) as [err|n] eqn:En;
    try discriminate.
  - destruct (n =? 1)%nat eqn:E1; [|discriminate].
    apply Nat.eqb_eq in E1. subst n. intros [= <- _].
    constructor; [|constructor]. now apply match_explicit_one.
  - destruct ((n =? 0)%nat && negb (second_is_dash o)) eqn:E0.
    + apply andb_prop in E0. destruct E0 as [E0 _].
      apply Nat.eqb_eq in E0. subst n.
      destruct (lookup_option p (String "-" (String c ""))) as [a1|];
        [|discriminate].
      destruct rest as [|c' rest'].
      * destruct (match_following a1 run) as [err|[args1 left1]] eqn:Ef;
          [discriminate|].
        intros [= <- _]. constructor; [now apply match_explicit_zero|].
        constructor; [|constructor]. eapply match_following_arity; eauto.
      * destruct (consume_explicit p a1 _ (String c' rest') run)
          as [err|[tuples1 left1]] eqn:E; [discriminate|].
        intros [= <- _]. constructor; [now apply match_explicit_zero|].
        eapply IH; eauto.
    + destruct (n =? 1)%nat eqn:E1; [|discriminate].
      apply Nat.eqb_eq in E1. subst n. intros [= <- _].
      constructor; [|constructor]. now apply match_explicit_one.
Qed.

(** Every action is handed as many argument strings as its [nargs]
    asks for. *)
Lemma consume_group_arity g tuples leftover :
  consume_group p g = inr (tuples, leftover) -> Forall arity_ok tuples.
Proof.
  destruct g as [[tok cls] run]. cbn.
  destruct cls as [|a o e| |]; try (intros [= <- _]; constructor).
  unfold consume_optional. destruct e as [ex|].
  - apply consume_explicit_arity.
  - destruct (match_following a run) as [err|[args left0]] eqn:E;
      [discriminate|].
    intros [= <- _]. constructor; [|constructor].
    eapply match_following_arity; eauto.
Qed.

End NamespaceFacts.

Section TypedParse.

Import Argparse.

Variable py_int : string -> option Z.
Variable plotly_installed : bool.

Lemma check_value_each_free a vs :
  choices a = None -> check_value_each a vs = inr tt.
Proof.
  intros Hc. induction vs as [|v vs IH]; cbn; [reflexivity|].
  unfold check_value. now rewrite Hc.
Qed.

Lemma in_choices_true s allowed :
  in_choices (VStr s) allowed = true -> In s allowed.
Proof.
  cbn. intros H. apply existsb_exists in H. destruct H as (x & Hx & E).
  apply String.eqb_eq in E. now subst x.
Qed.

Lemma first_backend_available :
  In (hd "" (_backends plotly_installed)) (_backends plotly_installed).
Proof. now left. Qed.

(** The namespace every parse starts from. *)
Lemma initial_invariant argv :
  parse_invariant (_backends plotly_installed)
    (initial (setup_args plotly_installed) argv).
Proof.
  split; [|discriminate]. cbn.
  constructor; eexists; (split; [reflexivity|]).
  - now left.
  - eauto.
  - now left.
  - now left.
  - eexists _, _, _, _. reflexivity.
  - eexists. split; [reflexivity | now left].
Qed.

(** Typing survives an assignment of a well-typed value. *)
Ltac retype :=
  match goal with
  | H : typed_namespace _ _ |- typed_namespace _ _ =>
      destruct H as [Hf Hm Ht Ho Ha Hb]; constructor;
      first [ apply getattr_is_setattr_same
            | apply getattr_is_setattr_other; [discriminate | assumption] ]
  end.

(** One action of the command line keeps the invariant. *)
Lemma take_action_invariant st t st' :
  In (fst (fst t)) (setup_args plotly_installed) ->
  arity_ok t ->
  parse_invariant (_backends plotly_installed) st ->
  take_action py_int st t = Continue st' ->
  parse_invariant (_backends plotly_installed) st'.
Proof.
  destruct t as [[a args] o]. cbn [fst]. intros Hin Har [Htyped Hseen].
  unfold setup_args, add_argument, ArgumentParser in Hin. cbn [app] in Hin.
  unfold take_action.
  repeat (destruct Hin as [<- | Hin]); try contradiction.
  - (* help *)
    destruct (get_values _ _ _); discriminate.
  - (* results_file *)
    unfold get_values. cbn [nargs].
    rewrite get_value_each_str by reflexivity.
    rewrite check_value_each_free by reflexivity. cbn.
    intros [= <-]. split; cbn [st_namespace].
    + retype. right. eauto.
    + intros _. apply getattr_is_setattr_same. eauto.
  - (* metric *)
    cbn in Har. destruct args as [|x [|? ?]]; try discriminate. cbn.
    intros [= <-]. split; cbn [st_namespace].
    + retype. eauto.
    + intros H. apply getattr_is_setattr_other; [discriminate|].
      apply Hseen. exact H.
  - (* title *)
    cbn in Har. destruct args as [|x [|? ?]]; try discriminate. cbn.
    intros [= <-]. split; cbn [st_namespace].
    + retype. right. eauto.
    + intros H. apply getattr_is_setattr_other; [discriminate|].
      apply Hseen. exact H.
  - (* output *)
    cbn in Har. destruct args as [|x [|? ?]]; try discriminate. cbn.
    intros [= <-]. split; cbn [st_namespace].
    + retype. right. eauto.
    + intros H. apply getattr_is_setattr_other; [discriminate|].
      apply Hseen. exact H.
  - (* axes *)
    cbn in Har.
    destruct args as [|x1 [|x2 [|x3 [|x4 [|? ?]]]]]; try discriminate.
    cbn. unfold get_value. cbn [type].
    destruct (py_int x1); [|discriminate].
    destruct (py_int x2); [|discriminate].
    destruct (py_int x3); [|discriminate].
    destruct (py_int x4); [|discriminate]. cbn.
    intros [= <-]. split; cbn [st_namespace].
    + retype. eexists _, _, _, _. reflexivity.
    + intros H. apply getattr_is_setattr_other; [discriminate|].
      apply Hseen. exact H.
  - (* backend *)
    cbn in Har. destruct args as [|x [|? ?]]; try discriminate.
    unfold get_values. cbn [nargs]. unfold get_value, check_value.
    cbn [type choices].
    destruct (in_choices (VStr x) (_backends plotly_installed)) eqn:E;
      [|discriminate].
    apply in_choices_true in E. cbn.
    intros [= <-]. split; cbn [st_namespace].
    + retype. eauto.
    + intros H. apply getattr_is_setattr_other; [discriminate|].
      apply Hseen. exact H.
Qed.

Lemma take_actions_invariant tuples :
  forall st st',
    Forall (fun t => In (fst (fst t)) (setup_args plotly_installed) /\
                     arity_ok t) tuples ->
    parse_invariant (_backends plotly_installed) st ->
    take_actions py_int st tuples = Continue st' ->
    parse_invariant (_backends plotly_installed) st'.
Proof.
  induction tuples as [|t tuples IH]; intros st st' Hall Hinv;
    cbn [take_actions].
  - now intros [= <-].
  - inversion Hall as [|? ? [Hin Har] Hrest]; subst.
    destruct (take_action py_int st t) as [st1|why] eqn:E; [|discriminate].
    apply IH; auto. eapply take_action_invariant; eauto.
Qed.

Lemma add_extras_invariant st more :
  parse_invariant (_backends plotly_installed) st ->
  parse_invariant (_backends plotly_installed) (add_extras st more).
Proof. now intros [H1 H2]. Qed.

Lemma run_groups_invariant argv groups :
  forall st st',
    (forall g, In g groups ->
               In g (snd (scan (setup_args plotly_installed) argv))) ->
    parse_invariant (_backends plotly_installed) st ->
    run_groups py_int (setup_args plotly_installed) st groups
      = Continue st' ->
    parse_invariant (_backends plotly_installed) st'.
Proof.
  induction groups as [|g groups IH]; intros st st' Hsub Hinv;
    cbn [run_groups].
  - now intros [= <-].
  - unfold step.
    destruct (consume_group _ g) as [err|[tuples leftover]] eqn:Ec;
      [discriminate|].
    destruct (take_actions py_int st tuples) as [st1|why] eqn:Et;
      [|discriminate].
    apply IH; [intros; apply Hsub; now right|].
    apply add_extras_invariant.
    apply (take_actions_invariant tuples st st1); auto.
    apply Forall_forall. intros [[a args] o] Ht. split.
    + cbn [fst].
      apply (consumed_actions_in (setup_args plotly_installed) argv g
               tuples leftover a args o); auto.
      apply Hsub. now left.
    + apply consume_group_arity in Ec.
      exact (proj1 (Forall_forall _ _) Ec _ Ht).
Qed.

(** Giving the unseen arguments their defaults keeps the typing and does
    not touch [results_file]. *)
Lemma convert_defaults_invariant st actions :
  forall ns ns',
    (forall a, In a actions -> In a (setup_args plotly_installed)) ->
    typed_namespace (_backends plotly_installed) ns ->
    convert_defaults py_int st actions ns = inr ns' ->
    typed_namespace (_backends plotly_installed) ns' /\
    getattr ns' "results_file" = getattr ns "results_file".
Proof.
  induction actions as [|a actions IH]; intros ns ns' Hsub Htyped;
    cbn [convert_defaults].
  - now intros [= <-].
  - assert (Hrest : forall a', In a' actions ->
                               In a' (setup_args plotly_installed))
      by (intros; apply Hsub; now right).
    destruct (seen st a || required a) eqn:Eskip; [now apply IH|].
    assert (Hin := Hsub a (or_introl eq_refl)).
    unfold setup_args, add_argument, ArgumentParser in Hin. cbn [app] in Hin.
    repeat (destruct Hin as [<- | Hin]); try contradiction;
      try (now apply IH).
    + now rewrite orb_true_r in Eskip.
    + cbn. intros H. apply IH in H; auto.
      * destruct H as [H1 H2]. split; [exact H1|].
        now rewrite H2, getattr_setattr_other by discriminate.
      * retype. eauto.
    + cbn. intros H. apply IH in H; auto.
      * destruct H as [H1 H2]. split; [exact H1|].
        now rewrite H2, getattr_setattr_other by discriminate.
      * retype. eexists. split; [reflexivity | now left].
Qed.

(** Every command line that [setup_args] accepts yields a namespace with
    a list of file names given with [-f], a metric, an optional title and
    output name, exactly four integer axis limits and a backend that is
    in the list of available backends. *)
Theorem parsed_namespace_is_typed argv ns :
  parse_args py_int (setup_args plotly_installed) argv = Parsed ns ->
  exists a,
    holds ns a /\ In (arg_backend a) (_backends plotly_installed).
Proof.
  unfold parse_args.
  destruct (split_dashdash argv) as [before after] eqn:Esplit.
  destruct (first_ambiguous _); [discriminate|].
  destruct (run_groups _ _ _ _) as [st|why] eqn:Erun; [|discriminate].
  assert (Hinv : parse_invariant (_backends plotly_installed) st).
  { apply (run_groups_invariant argv _ _ _ (fun g H => H)
             (initial_invariant argv) Erun). }
  destruct Hinv as [Htyped Hseen].
  destruct (convert_defaults _ _ _ _) as [err|ns1] eqn:Econv; [discriminate|].
  apply convert_defaults_invariant in Econv; auto.
  destruct Econv as [Htyped1 Hsame].
  destruct (filter _ _) as [|? ?] eqn:Emissing; [|discriminate].
  destruct (st_extras st ++ after)%list; [|discriminate].
  intros [= <-].
  assert (Hf : seen st results_file_argument = true).
  { destruct (seen st results_file_argument) eqn:E; [reflexivity|].
    exfalso. revert Emissing.
    unfold setup_args, add_argument, ArgumentParser. cbn [app filter].
    cbn [required help_argument andb].
    change {| action := StoreAction; flags := ["-f"; "--results-file"];
              type := TStr; nargs := NargsStar; default := VStr "";
              choices := None; required := true |}
      with results_file_argument.
    rewrite E. cbn. discriminate. }
  destruct (Hseen Hf) as (vf & Hvf & files & ->).
  destruct Htyped1 as [_ (vm & Hvm & metric & ->) (vt & Hvt & Ht)
                         (vo & Hvo & Ho)
                         (va & Hva & xmin & xmax & ymin & ymax & ->)
                         (vb & Hvb & backend & -> & Hb)].
  assert (Hopt : forall v, optional_string v ->
                           exists s, v = optional_value s).
  { intros v [-> | [s ->]]; [now exists None | now exists (Some s)]. }
  destruct (Hopt _ Ht) as [title ->]. destruct (Hopt _ Ho) as [output ->].
  exists {| arg_files := files; arg_metric := metric; arg_title := title;
            arg_output := output; arg_axes := (xmin, xmax, ymin, ymax);
            arg_backend := backend |}.
  split; [|exact Hb].
  unfold holds. cbn. rewrite Hsame. auto 10.
Qed.

End TypedParse.

(** * The run as a whole *)

Section LoopFacts.

Context {num : Type}.

(** A loop whose every turn returns, returns the list of what the turns
    returned and emits what they emitted, in order. *)
Lemma for_each_returns {A B : Type} (f : A -> M num B) items results :
  Forall2 (fun x y => result (f x) = Return y) items results ->
  for_each f items
  = (flat_map (fun x => trace (f x)) items, Return results).
Proof.
  induction 1 as [|x y items results Hx _ IH]; cbn [for_each flat_map].
  - reflexivity.
  - rewrite (bind_returns _ _ _ Hx), IH. cbn. now rewrite app_nil_r.
Qed.

(** A loop that meets a turn that raises emits what the turns before it
    and that turn emitted, and raises the same. *)
Lemma for_each_stops {A B : Type} (f : A -> M num B) before x after e :
  (forall y, In y before -> exists v, result (f y) = Return v) ->
  result (f x) = Raise e ->
  for_each f (before ++ x :: after)
  = ((flat_map (fun y => trace (f y)) before ++ trace (f x))%list, Raise e).
Proof.
  intros Hbefore Hx. induction before as [|y before IH];
    cbn [app for_each flat_map].
  - now rewrite (bind_raises _ _ _ Hx).
  - destruct (Hbefore y (or_introl eq_refl)) as [v Hv].
    rewrite (bind_returns _ _ _ Hv), IH by (intros; apply Hbefore; now right).
    cbn. now rewrite app_assoc.
Qed.

(** Either every turn of a loop returns, or there is a first one that
    raises. *)
Lemma for_each_cases {A B : Type} (f : A -> M num B) items :
  (exists results, Forall2 (fun x y => result (f x) = Return y) items results)
  \/
  (exists before x after e,
      items = (before ++ x :: after)%list /\
      (forall y, In y before -> exists v, result (f y) = Return v) /\
      result (f x) = Raise e).
Proof.
  induction items as [|x items IH].
  - left. exists []. constructor.
  - destruct (result (f x)) as [y|e] eqn:Hx.
    + destruct IH as [[results H] | (before & x' & after & e & -> & Hb & Hx')].
      * left. exists (y :: results). now constructor.
      * right. exists (x :: before), x', after, e. repeat split; auto.
        intros z [<- | Hz]; eauto.
    + right. exists [], x, items, e. repeat split; auto. contradiction.
Qed.

End LoopFacts.

Section MainFacts.

Context {num : Type} {arith : Arith num}.

Variable fs : string -> option string.
Variable json_loads : string -> decode_error + pyobj num.
Variable plotly_installed : bool.
Variable py_int : string -> option Z.

Import Argparse.

Lemma as_optional_string_value s :
  as_optional_string (optional_value s) = Return s.
Proof. now destruct s. Qed.

Lemma as_limits_list items :
  as_limits (VList (map VInt items)) = Return (Some items).
Proof.
  cbn. induction items as [|z items IH]; cbn; [|rewrite IH]; reflexivity.
Qed.

(** A series comes back from a file that was opened and nothing more. *)
Lemma parse_returns_trace filepath metric s :
  result (parse_json_file fs json_loads filepath metric) = Return s ->
  trace (parse_json_file fs json_loads filepath metric)
    = [Opened (normalised filepath)].
Proof.
  intros Hs.
  destruct (parse_json_file_trace fs json_loads filepath metric)
    as [[H | H] Hiff]; [exact H|].
  apply Hiff in H. destruct H as [err Herr].
  rewrite (parse_undecodable _ _ _ metric _ Herr) in Hs. discriminate.
Qed.

Lemma parse_opened_paths filepath metric :
  opened_paths (trace (parse_json_file fs json_loads filepath metric))
    = [normalised filepath].
Proof.
  destruct (parse_json_file_trace fs json_loads filepath metric)
    as [[-> | ->] _]; reflexivity.
Qed.

Lemma parse_plots filepath metric :
  plots (trace (parse_json_file fs json_loads filepath metric)) = [].
Proof.
  destruct (parse_json_file_trace fs json_loads filepath metric)
    as [[-> | ->] _]; reflexivity.
Qed.

(** What [main] does once the command line is parsed: the loop over the
    files, then the renderer named by the backend. *)
Lemma main_after_parse argv ns a :
  parse_args py_int (setup_args plotly_installed) argv = Parsed ns ->
  holds ns a ->
  main fs json_loads plotly_installed py_int argv
  = bind (for_each (fun f => parse_json_file fs json_loads f (arg_metric a))
            (arg_files a))
      (fun scatters =>
         bind (lift (func_map_get (func_map plotly_installed)
                       (arg_backend a)))
           (fun plot =>
              plot scatters (arg_title a) (arg_metric a) (arg_output a)
                (Some (axes_list (arg_axes a))))).
Proof.
  intros Hns (Hfiles & Hmetric & Htitle & Houtput & Haxes & Hbackend).
  assert (Hloop : forall files,
             for_each
               (fun f =>
                  bind (lift (Return (VStr (arg_metric a))))
                    (fun m => bind (lift (as_string m))
                                (fun m => parse_json_file fs json_loads f m)))
               files
             = for_each
                 (fun f => parse_json_file fs json_loads f (arg_metric a))
                 files).
  { induction files as [|f files IH]; cbn [for_each]; [reflexivity|].
    rewrite IH, bind_lift_return. cbn [as_string].
    now rewrite bind_lift_return. }
  unfold main, parse_args_or_exit. rewrite Hns, bind_ret.
  unfold attribute.
  rewrite Hfiles, Hmetric, Htitle, Houtput, Haxes, Hbackend.
  rewrite bind_lift_return, iter_strings_list, bind_lift_return, Hloop.
  destruct (for_each _ (arg_files a)) as [t [scatters|e]]; [|reflexivity].
  cbn [bind].
  repeat first [rewrite bind_lift_return | progress cbn [as_string]].
  destruct (func_map_get _ _) as [plot|e]; [|reflexivity].
  repeat first [ rewrite bind_lift_return
               | rewrite as_optional_string_value
               | rewrite as_limits_list ].
  reflexivity.
Qed.

(** The backends that can be chosen are the ones [main] has a renderer
    for, and [plotly] is among them only when it was imported. *)
Lemma renderer_available backend :
  In backend (_backends plotly_installed) ->
  exists plot,
    renderer_of plotly_installed backend = Some plot /\
    func_map_get (func_map plotly_installed) backend = Return plot /\
    (forall (scatters : list (series num)) title ylabel output axes,
        result (plot scatters title ylabel output (Some (axes_list axes)))
          = Return tt /\
        opened_paths
          (trace (plot scatters title ylabel output (Some (axes_list axes))))
          = [] /\
        plots
          (trace (plot scatters title ylabel output (Some (axes_list axes))))
          <> []).
Proof.
  unfold _backends. intros [<- | H].
  - exists matplotlib_plt. split; [reflexivity|]. split; [reflexivity|].
    intros scatters title ylabel output axes.
    destruct output as [[|? ?]|]; cbn; repeat split; discriminate.
  - destruct plotly_installed; [|contradiction].
    destruct H as [<- | []]. exists (plotly_plt true).
    split; [reflexivity|]. split; [reflexivity|].
    intros scatters title ylabel output [[[xmin xmax] ymin] ymax].
    destruct scatters; cbn; repeat split; discriminate.
Qed.

Lemma holds_backend ns a a' :
  holds ns a -> holds ns a' -> arg_backend a = arg_backend a'.
Proof.
  intros (_ & _ & _ & _ & _ & H) (_ & _ & _ & _ & _ & H'). congruence.
Qed.

Lemma backend_is_available argv ns a :
  parse_args py_int (setup_args plotly_installed) argv = Parsed ns ->
  holds ns a ->
  In (arg_backend a) (_backends plotly_installed).
Proof.
  intros Hns Ha.
  destruct (parsed_namespace_is_typed _ _ _ _ Hns) as (a' & Ha' & Hin).
  now rewrite (holds_backend _ _ _ Ha Ha').
Qed.

(** When the command line parses and every file gives a series, each
    file is opened once, in the order given, and then the renderer named
    by the backend is called with the series in that order, the title,
    the metric as the label of the y axis, the output name and the axis
    limits; the run ends as that call ends. *)
Theorem main_draws_what_it_read argv ns a scatters :
  parse_args py_int (setup_args plotly_installed) argv = Parsed ns ->
  holds ns a ->
  Forall2
    (fun f s => result (parse_json_file fs json_loads f (arg_metric a))
                = Return s)
    (arg_files a) scatters ->
  exists plot,
    renderer_of plotly_installed (arg_backend a) = Some plot /\
    main fs json_loads plotly_installed py_int argv
    = ((map (fun f => Opened (normalised f)) (arg_files a)
        ++ trace (plot scatters (arg_title a) (arg_metric a) (arg_output a)
                    (Some (axes_list (arg_axes a)))))%list,
       result (plot scatters (arg_title a) (arg_metric a) (arg_output a)
                 (Some (axes_list (arg_axes a))))).
Proof.
  intros Hns Ha Hall.
  destruct (renderer_available _ (backend_is_available _ _ _ Hns Ha))
    as (plot & Hplot & Hget & _).
  exists plot. split; [exact Hplot|].
  rewrite (main_after_parse _ _ _ Hns Ha).
  rewrite (for_each_returns _ _ _ Hall). cbn [bind].
  rewrite Hget, bind_lift_return.
  destruct (plot _ _ _ _ _) as [t r]. cbn [trace result fst snd]. f_equal.
  f_equal.
  clear - Hall. induction Hall as [|f s files scatters Hf _ IH]; cbn.
  - reflexivity.
  - now rewrite (parse_returns_trace _ _ _ Hf), IH.
Qed.


(** Files are opened in the order given, and the first one that makes
    [parse_json_file] raise ends the run: its exception is the result,
    no later file is opened and nothing is drawn. *)
Theorem main_stops_at_first_failure argv ns a before x after e :
  parse_args py_int (setup_args plotly_installed) argv = Parsed ns ->
  holds ns a ->
  arg_files a = (before ++ x :: after)%list ->
  (forall f, In f before ->
             exists s,
               result (parse_json_file fs json_loads f (arg_metric a))
               = Return s) ->
  result (parse_json_file fs json_loads x (arg_metric a)) = Raise e ->
  result (main fs json_loads plotly_installed py_int argv) = Raise e /\
  opened_paths (trace (main fs json_loads plotly_installed py_int argv))
    = map normalised (before ++ [x]) /\
  plots (trace (main fs json_loads plotly_installed py_int argv)) = [].
Proof.
  intros Hns Ha Hfiles Hb Hx.
  rewrite (main_after_parse _ _ _ Hns Ha), Hfiles.
  rewrite (for_each_stops _ _ _ _ _ Hb Hx). cbn [bind result trace fst snd].
  split; [reflexivity|].
  unfold opened_paths, plots.
  rewrite flat_map_app, filter_app, map_app. cbn [map].
  fold (opened_paths (trace (parse_json_file fs json_loads x (arg_metric a)))).
  fold (plots (trace (parse_json_file fs json_loads x (arg_metric a)))).
  rewrite parse_opened_paths, parse_plots, app_nil_r.
  clear Hfiles Hx. induction before as [|f before IH]; cbn [flat_map map].
  - split; reflexivity.
  - rewrite flat_map_app, filter_app.
    fold (opened_paths
            (trace (parse_json_file fs json_loads f (arg_metric a)))).
    fold (plots (trace (parse_json_file fs json_loads f (arg_metric a)))).
    rewrite parse_opened_paths, parse_plots.
    destruct IH as [IH1 IH2]; [intros; apply Hb; now right|].
    cbn [app]. split; [now rewrite <- IH1 | exact IH2].
Qed.

(** The run opens no file but those named on the command line, each at
    most once and in the order given: none when the command line is
    refused, and otherwise the first files of the list, up to the one
    that fails if there is one. *)
Theorem main_opens_only_named_files argv :
  (forall why,
      parse_args py_int (setup_args plotly_installed) argv = Exited why ->
      opened_paths (trace (main fs json_loads plotly_installed py_int argv))
        = []) /\
  (forall ns a,
      parse_args py_int (setup_args plotly_installed) argv = Parsed ns ->
      holds ns a ->
      exists n,
        opened_paths (trace (main fs json_loads plotly_installed py_int argv))
          = firstn n (map normalised (arg_files a))).
Proof.
  split.
  - intros why Hwhy. unfold main, parse_args_or_exit. rewrite Hwhy.
    destruct why; reflexivity.
  - intros ns a Hns Ha.
    destruct (for_each_cases
                (fun f => parse_json_file fs json_loads f (arg_metric a))
                (arg_files a))
      as [[scatters Hall] | (before & x & after & e & Hfiles & Hb & Hx)].
    + destruct (main_draws_what_it_read _ _ _ scatters Hns Ha Hall)
        as (plot & Hplot & ->).
      destruct (renderer_available _ (backend_is_available _ _ _ Hns Ha))
        as (plot' & Hplot' & _ & Hok).
      assert (plot' = plot) by congruence. subst plot'.
      destruct (Hok scatters (arg_title a) (arg_metric a) (arg_output a)
                  (arg_axes a)) as (_ & Hopened & _).
      exists (List.length (arg_files a)).
      cbn [trace fst]. unfold opened_paths in *.
      rewrite flat_map_app, Hopened, app_nil_r.
      rewrite firstn_all2 by (rewrite length_map; lia).
      clear. induction (arg_files a) as [|f files IH]; cbn; [|rewrite IH];
        reflexivity.
    + destruct (main_stops_at_first_failure _ _ _ _ _ _ _ Hns Ha Hfiles Hb Hx)
        as (_ & -> & _).
      exists (S (List.length before)). rewrite Hfiles, !map_app.
      cbn [map].
      change (map normalised before
              ++ normalised x :: map normalised after)%list
        with (map normalised before
              ++ [normalised x] ++ map normalised after)%list.
      rewrite app_assoc, firstn_app.
      rewrite firstn_all2
        by (rewrite length_app, length_map; cbn [List.length]; lia).
      replace (S (List.length before)
               - List.length (map normalised before ++ [normalised x]))%nat
        with 0%nat by (rewrite length_app, length_map; cbn [List.length]; lia).
      now rewrite app_nil_r.
Qed.

End MainFacts.

(** * The command line with defaults *)

Section Defaults.

Context {num : Type} {arith : Arith num}.

Variable fs : string -> option string.
Variable json_loads : string -> decode_error + pyobj num.
Variable plotly_installed : bool.
Variable py_int : string -> option Z.

Import Argparse.

Lemma plain_is_positional p tok :
  plain tok -> parse_optional p tok = Positional /\ tok <> "--".
Proof.
  unfold plain, parse_optional. intros H. rewrite H.
  split; [reflexivity|]. intros ->. discriminate.
Qed.

Lemma split_dashdash_plain files :
  Forall plain files -> split_dashdash files = (files, []).
Proof.
  induction 1 as [|tok files Htok _ IH]; cbn; [reflexivity|].
  destruct (tok =? "--") eqn:E.
  - apply String.eqb_eq in E. subst tok. cbv in Htok. discriminate.
  - now rewrite IH.
Qed.

Lemma group_tokens_plain p files :
  Forall plain files ->
  group_tokens (map (fun tok => (tok, parse_optional p tok)) files)
  = (files, []).
Proof.
  induction 1 as [|tok files Htok _ IH]; [reflexivity|].
  cbn [map group_tokens fold_right].
  fold (group_tokens (map (fun tok => (tok, parse_optional p tok)) files)).
  rewrite IH. cbn [snd fst].
  now rewrite (proj1 (plain_is_positional p tok Htok)).
Qed.

Lemma first_ambiguous_plain p files :
  Forall plain files ->
  first_ambiguous (map (fun tok => (tok, parse_optional p tok)) files) = None.
Proof.
  induction 1 as [|tok files Htok _ IH]; [reflexivity|].
  cbn [map first_ambiguous].
  now rewrite (proj1 (plain_is_positional p tok Htok)).
Qed.

(** A command line that only names files: every other argument takes its
    default, the metric [psnr], no title, no output file, the axis limits
    [(0, 2, 28, 43)] and the first backend, [matplotlib]. *)
Theorem files_only_command_line files :
  Forall plain files ->
  parse_args py_int (setup_args plotly_installed) ("-f" :: files)
  = Parsed [("results_file", VList (map VStr files));
            ("metric", VStr "psnr");
            ("title", VNone);
            ("output", VNone);
            ("axes", VList [VInt 0; VInt 2; VInt 28; VInt 43]);
            ("backend", VStr "matplotlib")].
Proof.
  intros Hplain. unfold parse_args, initial, scan.
  cbn [split_dashdash String.eqb Ascii.eqb Bool.eqb].
  rewrite (split_dashdash_plain _ Hplain). cbn [fst snd map].
  set (p := setup_args plotly_installed).
  assert (Hf : parse_optional p "-f"
               = Optional results_file_argument "-f" None) by reflexivity.
  rewrite Hf. cbn [first_ambiguous].
  rewrite (first_ambiguous_plain _ _ Hplain).
  cbn [group_tokens fold_right].
  fold (group_tokens (map (fun tok => (tok, parse_optional p tok)) files)).
  rewrite (group_tokens_plain _ _ Hplain). cbn [fst snd].
  cbn [run_groups step consume_group consume_optional match_following
       results_file_argument nargs take_actions take_action].
  unfold get_values. cbn [nargs].
  rewrite get_value_each_str by reflexivity.
  rewrite check_value_each_free by reflexivity.
  reflexivity.
Qed.

(** The run for such a command line: the [psnr] series of every file,
    handed to [matplotlib_plt] without title or output file and with the
    default limits. *)
Theorem main_with_defaults files scatters :
  Forall plain files ->
  Forall2
    (fun f s => result (parse_json_file fs json_loads f "psnr") = Return s)
    files scatters ->
  main fs json_loads plotly_installed py_int ("-f" :: files)
  = ((map (fun f => Opened (normalised f)) files
      ++ trace (matplotlib_plt scatters None "psnr" None
                  (Some [0; 2; 28; 43]%Z)))%list,
     result (matplotlib_plt scatters None "psnr" None
               (Some [0; 2; 28; 43]%Z))).
Proof.
  intros Hplain Hall.
  destruct (main_draws_what_it_read fs json_loads plotly_installed py_int
              ("-f" :: files) _
              {| arg_files := files; arg_metric := "psnr";
                 arg_title := None; arg_output := None;
                 arg_axes := (0, 2, 28, 43)%Z;
                 arg_backend := "matplotlib" |}
              scatters (files_only_command_line files Hplain))
    as (plot & Hplot & Hmain).
  - repeat split; reflexivity.
  - exact Hall.
  - injection Hplot as <-. exact Hmain.
Qed.

(** File names given without [-f] are refused: the option is required,
    the process exits with status 2 and no file is opened. *)
Theorem files_without_flag_are_refused files :
  Forall plain files ->
  main fs json_loads plotly_installed py_int files
  = ([UsageError (RequiredArguments ["-f/--results-file"])],
     Raise (SystemExit 2)).
Proof.
  intros Hplain. unfold main, parse_args_or_exit, parse_args, initial, scan.
  rewrite (split_dashdash_plain _ Hplain). cbn [fst snd].
  rewrite (first_ambiguous_plain _ _ Hplain).
  rewrite (group_tokens_plain _ _ Hplain). reflexivity.
Qed.

(** A command line that starts with [-h] never reads a file: the process
    exits at once, with the help text or, when a later token is an
    ambiguous option, with a usage error. *)
Theorem help_first_reads_nothing rest :
  exists ev code,
    main fs json_loads plotly_installed py_int ("-h" :: rest)
    = ([ev], Raise (SystemExit code)) /\
    is_opened ev = false /\ is_plot ev = false.
Proof.
  unfold main, parse_args_or_exit, parse_args, initial, scan.
  cbn [split_dashdash String.eqb Ascii.eqb Bool.eqb].
  destruct (split_dashdash rest) as [before after]. cbn [fst snd map].
  set (p := setup_args plotly_installed).
  assert (Hh : parse_optional p "-h" = Optional help_argument "-h" None)
    by reflexivity.
  rewrite Hh. cbn [first_ambiguous].
  destruct (first_ambiguous _) as [e|];
    [eexists _, _; repeat split; reflexivity|].
  cbn [group_tokens fold_right].
  fold (group_tokens (map (fun tok => (tok, parse_optional p tok)) before)).
  destruct (group_tokens _) as [run groups]. cbn [fst snd].
  cbn [run_groups step consume_group consume_optional].
  unfold match_following. cbn [nargs help_argument Nat.leb firstn skipn].
  cbn. eexists _, _. repeat split; reflexivity.
Qed.

End Defaults.

(** * The further properties, run *)

(** [psnr] in [results/hyperprior.json]. *)
Lemma parse_json_file_succeeds_iff_witness :
  result (Example.parse "results/hyperprior.json" "psnr")
    = Return {| name := PStr "hyperprior";
                xs := PList [PNum 0.1%R; PNum 0.2%R];
                ys := PList [PNum 30%R; PNum 31%R] |} <->
  exists doc results bpp stored,
    decodes_to Example.fs Example.json_loads "results/hyperprior.json" doc /\
    well_formed doc results bpp /\
    dict_get "psnr" results = Some stored /\
    {| name := PStr "hyperprior";
       xs := PList [PNum 0.1%R; PNum 0.2%R];
       ys := PList [PNum 30%R; PNum 31%R] |}
    = {| name := series_name "results/hyperprior.json" doc;
         xs := bpp; ys := stored |}.
Proof.
  apply (parse_json_file_succeeds_iff Example.fs Example.json_loads
           "results/hyperprior.json" "psnr").
  discriminate.
Defined.

(** A document that is a list. *)
Lemma non_object_document_is_refused_witness :
  result (Edge.parse "list.json" "psnr") = Raise TypeError \/
  result (Edge.parse "list.json" "psnr")
    = Raise (ValueError ("Invalid file " ++ PyStr.dq
                           ++ normalised "list.json" ++ PyStr.dq)).
Proof.
  apply (non_object_document_is_refused Edge.fs Edge.json_loads
           "list.json" "psnr" Edge.list_doc).
  - exists Edge.list_text. split; reflexivity.
  - discriminate.
Defined.

(** A document whose [results] is [null]. *)
Lemma scalar_results_is_type_error_witness :
  Edge.parse "null-results.json" "psnr"
    = ([Opened "null-results.json"], Raise TypeError).
Proof.
  apply (scalar_results_is_type_error Edge.fs Edge.json_loads
           "null-results.json" "psnr" [("results", PNone)] PNone).
  - exists Edge.null_results_text. split; reflexivity.
  - reflexivity.
  - exact I.
Defined.

(** [psnr] and [msssim] of one file. *)
Lemma name_and_xs_do_not_depend_on_metric_witness :
  let s := {| name := PStr "hyperprior";
              xs := PList [PNum 0.1%R; PNum 0.2%R];
              ys := PList [PNum 30%R; PNum 31%R] |} in
  let s' := {| name := PStr "hyperprior";
               xs := PList [PNum 0.1%R; PNum 0.2%R];
               ys := PNdarray [to_db 0.9%R; to_db 0.99%R] |} in
  name s = name s' /\ xs s = xs s'.
Proof.
  intros s s'.
  apply (name_and_xs_do_not_depend_on_metric Example.fs Example.json_loads
           "results/hyperprior.json" "psnr" "msssim" s s');
    reflexivity.
Defined.

(** A command line with limits and a backend. *)
Lemma parsed_namespace_is_typed_witness :
  exists a,
    holds
      [("results_file", Argparse.VList [Argparse.VStr "msssim.json"]);
       ("metric", Argparse.VStr "msssim");
       ("title", Argparse.VNone);
       ("output", Argparse.VNone);
       ("axes", Argparse.VList [Argparse.VInt 0; Argparse.VInt 1;
                                Argparse.VInt (-5); Argparse.VInt 40]);
       ("backend", Argparse.VStr "plotly")] a /\
    In (arg_backend a) (_backends true).
Proof.
  apply (parsed_namespace_is_typed Example.py_int true
           ["-f"; "msssim.json"; "-m"; "msssim"; "--axes"; "0"; "1"; "-5";
            "40"; "--backend"; "plotly"]).
  reflexivity.
Defined.

(** Two files drawn by the interactive backend. *)
Lemma main_draws_what_it_read_witness :
  let scatters :=
    [{| name := PStr "hyperprior";
        xs := PList [PNum 0.1%R; PNum 0.2%R];
        ys := PList [PNum 30%R; PNum 31%R] |};
     {| name := PStr "model";
        xs := PList [PNum 0.1%R; PNum 0.2%R];
        ys := PList [PNum 30%R] |}] in
  exists plot,
    renderer_of true "plotly" = Some plot /\
    Example.run ["-f"; "results/hyperprior.json"; "results/model.v2.json";
                 "--backend"; "plotly"; "-o"; "rd.html"]
    = ([Opened "results/hyperprior.json"; Opened "results/model.v2.json"]
       ++ trace (plot scatters None "psnr" (Some "rd.html")
                   (Some [0; 2; 28; 43]%Z)),
       result (plot scatters None "psnr" (Some "rd.html")
                 (Some [0; 2; 28; 43]%Z)))%list.
Proof.
  intros scatters.
  eapply (main_draws_what_it_read Example.fs Example.json_loads true
           Example.py_int
           ["-f"; "results/hyperprior.json"; "results/model.v2.json";
            "--backend"; "plotly"; "-o"; "rd.html"] _
           {| arg_files := ["results/hyperprior.json";
                            "results/model.v2.json"];
              arg_metric := "psnr"; arg_title := None;
              arg_output := Some "rd.html";
              arg_axes := (0, 2, 28, 43)%Z;
              arg_backend := "plotly" |} scatters).
  - reflexivity.
  - repeat split; reflexivity.
  - repeat constructor.
Defined.


(** The same run, event by event. *)
Lemma main_stops_at_first_failure_witness :
  result (Example.run ["-f"; "results/hyperprior.json"; "broken.json";
                       "results/model.v2.json"])
    = Raise (JSONDecodeError Example.broken_error) /\
  opened_paths
    (trace (Example.run ["-f"; "results/hyperprior.json"; "broken.json";
                         "results/model.v2.json"]))
    = map normalised (["results/hyperprior.json"] ++ ["broken.json"]) /\
  plots
    (trace (Example.run ["-f"; "results/hyperprior.json"; "broken.json";
                         "results/model.v2.json"])) = [].
Proof.
  eapply (main_stops_at_first_failure Example.fs Example.json_loads true
           Example.py_int
           ["-f"; "results/hyperprior.json"; "broken.json";
            "results/model.v2.json"] _
           {| arg_files := ["results/hyperprior.json"; "broken.json";
                            "results/model.v2.json"];
              arg_metric := "psnr"; arg_title := None; arg_output := None;
              arg_axes := (0, 2, 28, 43)%Z;
              arg_backend := "matplotlib" |}
           ["results/hyperprior.json"] "broken.json"
           ["results/model.v2.json"]).
  - reflexivity.
  - repeat split; reflexivity.
  - reflexivity.
  - intros f [<- | []]. eexists. reflexivity.
  - reflexivity.
Defined.

(** Two file names and nothing else. *)
Lemma files_only_command_line_witness :
  Argparse.parse_args Example.py_int (setup_args false)
    ["-f"; "a.json"; "b.json"]
  = Argparse.Parsed
      [("results_file",
        Argparse.VList (map Argparse.VStr ["a.json"; "b.json"]));
       ("metric", Argparse.VStr "psnr");
       ("title", Argparse.VNone);
       ("output", Argparse.VNone);
       ("axes", Argparse.VList [Argparse.VInt 0; Argparse.VInt 2;
                                Argparse.VInt 28; Argparse.VInt 43]);
       ("backend", Argparse.VStr "matplotlib")].
Proof.
  apply (files_only_command_line false Example.py_int ["a.json"; "b.json"]).
  repeat constructor.
Defined.

(** The default run over two files. *)
Lemma main_with_defaults_witness :
  let scatters :=
    [{| name := PStr "hyperprior";
        xs := PList [PNum 0.1%R; PNum 0.2%R];
        ys := PList [PNum 30%R; PNum 31%R] |};
     {| name := PStr "model";
        xs := PList [PNum 0.1%R; PNum 0.2%R];
        ys := PList [PNum 30%R] |}] in
  Example.run ["-f"; "results/hyperprior.json"; "results/model.v2.json"]
  = ((map (fun f => Opened (normalised f))
        ["results/hyperprior.json"; "results/model.v2.json"]
      ++ trace (matplotlib_plt scatters None "psnr" None
                  (Some [0; 2; 28; 43]%Z)))%list,
     result (matplotlib_plt scatters None "psnr" None
               (Some [0; 2; 28; 43]%Z))).
Proof.
  intros scatters.
  apply (main_with_defaults Example.fs Example.json_loads true Example.py_int
           ["results/hyperprior.json"; "results/model.v2.json"] scatters).
  - repeat constructor.
  - repeat constructor.
Defined.

(** Two file names without the option. *)
Lemma files_without_flag_are_refused_witness :
  Example.run ["results/hyperprior.json"; "msssim.json"]
  = ([UsageError (Argparse.RequiredArguments ["-f/--results-file"])],
     Raise (SystemExit 2)).
Proof.
  apply (files_without_flag_are_refused Example.fs Example.json_loads true
           Example.py_int ["results/hyperprior.json"; "msssim.json"]).
  repeat constructor.
Defined.
